(** * rcon.gui: the command-session runner of the RCON GTK front end

    A shallow embedding of [src/rcon/gui.py].  The window's widgets are a
    record of their texts; the RCON client of [rcon.proto] is a collaborator
    given by its responses; exceptions are values threaded through a state
    and error monad.  Python's [str] is Rocq's [string]: a sequence of
    characters with code points 0..255. *)

From Stdlib Require Import ZArith Lia Ascii String List.
From Stdlib Require Import Decimal DecimalString DecimalFacts DecimalPos DecimalZ.
From stdpp Require Import base strings gmap.

Local Open Scope string_scope.
Local Open Scope Z_scope.

(** ** Python values and exceptions *)

Module Py.

(** The Python objects that reach this module: exception arguments, the value
    returned by [Client.run], and the values of the settings dictionary. *)
Inductive pyval :=
| PyStr (s : string)
| PyBool (b : bool)
| PyInt (z : Z)
| PyNone.

(** Truth value testing, as used by [if], [not] and by the gboolean
    conversion of PyGObject. *)
Definition truthy (v : pyval) : bool :=
  match v with
  | PyStr s => negb (String.eqb s EmptyString)
  | PyBool b => b
  | PyInt z => negb (z =? 0)
  | PyNone => false
  end.

(** Exceptions by the classes [on_button_clicked] tells apart.  [ValueError]
    stands for the class and its subclasses and carries [error.args];
    [timeout] is [socket.timeout]; [RequestIdMismatch] and [WrongPassword]
    are the classes of [rcon.exceptions]; [OtherError] is an instance of any
    class outside these five, named by its class. *)
Inductive exn :=
| ValueError (args : list pyval)
| ConnectionRefusedError
| timeout
| RequestIdMismatch
| WrongPassword
| OtherError (cls : string).

Definition TypeError : exn := OtherError "TypeError".

(** The outcome of evaluating an expression: a value, or a raised exception. *)
Inductive res (A : Type) :=
| Ret (a : A)
| Raise (e : exn).
Arguments Ret {A} a.
Arguments Raise {A} e.

(** *** [int(s)] for a [str] argument, base 10

    CPython: [PyLong_FromUnicodeObject] rewrites the text with
    [_PyUnicode_TransformDecimalAndSpaceToASCII] and hands it to
    [PyLong_FromString], which must consume all of it.  The interpreter's
    configurable cap on the number of digits is not modelled. *)

Definition code (a : ascii) : Z := Z.of_N (N_of_ascii a).

(** [Py_ISSPACE]: tab, line feed, vertical tab, form feed, carriage return,
    space. *)
Definition Py_ISSPACE (a : ascii) : bool :=
  ((9 <=? code a) && (code a <=? 13)) || (code a =? 32).

(** [Py_UNICODE_ISSPACE] on the code points 128..255: NEL and NBSP. *)
Definition Py_UNICODE_ISSPACE_high (a : ascii) : bool :=
  (code a =? 133) || (code a =? 160).

(** Code points below 127 are kept; higher white space becomes a space;
    higher decimal digits would become ASCII digits, but there is none below
    256, so any other character becomes a question mark that ends the
    text. *)
Fixpoint TransformDecimalAndSpaceToASCII (s : string) : string :=
  match s with
  | EmptyString => EmptyString
  | String a r =>
      if code a <? 127 then String a (TransformDecimalAndSpaceToASCII r)
      else if Py_UNICODE_ISSPACE_high a
           then String " " (TransformDecimalAndSpaceToASCII r)
           else String "?" EmptyString
  end.

Fixpoint skip_space (s : string) : string :=
  match s with
  | EmptyString => EmptyString
  | String a r => if Py_ISSPACE a then skip_space r else s
  end.

Definition digit_of (a : ascii) : option (uint -> uint) :=
  match a with
  | "0" => Some D0 | "1" => Some D1 | "2" => Some D2 | "3" => Some D3
  | "4" => Some D4 | "5" => Some D5 | "6" => Some D6 | "7" => Some D7
  | "8" => Some D8 | "9" => Some D9
  | _ => None
  end%char.

Definition is_underscore (a : ascii) : bool := Ascii.eqb a "_".

(** The scan over the maximal run of digits and underscores: [prev] is the
    character before, a second underscore in a row or an underscore at the
    end of the run is an error; the result is the digits read and the text
    that follows the run. *)
Fixpoint scan_digits (prev : ascii) (s : string) : option (uint * string) :=
  match s with
  | EmptyString => if is_underscore prev then None else Some (Nil, EmptyString)
  | String a r =>
      match digit_of a with
      | Some D =>
          match scan_digits a r with
          | Some (d, rest) => Some (D d, rest)
          | None => None
          end
      | None =>
          if is_underscore a
          then if is_underscore prev then None else scan_digits a r
          else if is_underscore prev then None else Some (Nil, s)
      end
  end.

Definition starts_with_underscore (s : string) : bool :=
  match s with
  | String a _ => is_underscore a
  | EmptyString => false
  end.

(** [PyLong_FromString(str, &end, 10)] with the caller's test that [end] is
    the end of the text; [None] is the [ValueError]. *)
Definition PyLong_FromString (s : string) : option Z :=
  let s1 := skip_space s in
  let '(negative, s2) :=
    match s1 with
    | String "+" r => (false, r)
    | String "-" r => (true, r)
    | _ => (false, s1)
    end in
  if starts_with_underscore s2 then None
  else
    match scan_digits Ascii.zero s2 with
    | None => None
    | Some (Nil, _) => None
    | Some (d, rest) =>
        match skip_space rest with
        | EmptyString => Some (Z.of_int (if negative then Neg d else Pos d))
        | String _ _ => None
        end
    end.

Definition int (s : string) : option Z :=
  PyLong_FromString (TransformDecimalAndSpaceToASCII s).

(** [str(n)] for an [int]: the decimal numeral, with a minus sign when
    negative. *)
Definition str (n : Z) : string := NilZero.string_of_int (Z.to_int n).

(** [sep.join(items)]: a [TypeError] unless every item is a [str]. *)
Fixpoint join (sep : string) (items : list pyval) : res string :=
  match items with
  | nil => Ret EmptyString
  | PyStr s :: nil => Ret s
  | PyStr s :: rest =>
      match join sep rest with
      | Ret t => Ret (s +:+ sep +:+ t)
      | Raise e => Raise e
      end
  | _ :: _ => Raise TypeError
  end.

End Py.

Import Py.

(** ** The data of [gui.py] *)

(** [class RCONParams(NamedTuple)]. *)
Module RCONParams.
Record t := make {
  host : string;
  port : Z;
  passwd : string;
  command : string
}.
End RCONParams.

(** The state of the window: the text of each [Gtk.Entry] and the state of
    the [Gtk.CheckButton]. *)
Record GUI := {
  host : string;
  port : string;
  passwd : string;
  command : string;
  result : string;
  savepw : bool
}.

Definition set_host (t : string) (g : GUI) : GUI :=
  {| host := t; port := port g; passwd := passwd g; command := command g;
     result := result g; savepw := savepw g |}.
Definition set_port (t : string) (g : GUI) : GUI :=
  {| host := host g; port := t; passwd := passwd g; command := command g;
     result := result g; savepw := savepw g |}.
Definition set_passwd (t : string) (g : GUI) : GUI :=
  {| host := host g; port := port g; passwd := t; command := command g;
     result := result g; savepw := savepw g |}.
Definition set_command (t : string) (g : GUI) : GUI :=
  {| host := host g; port := port g; passwd := passwd g; command := t;
     result := result g; savepw := savepw g |}.
Definition set_result (t : string) (g : GUI) : GUI :=
  {| host := host g; port := port g; passwd := passwd g; command := command g;
     result := t; savepw := savepw g |}.
Definition set_savepw (b : bool) (g : GUI) : GUI :=
  {| host := host g; port := port g; passwd := passwd g; command := command g;
     result := result g; savepw := b |}.

(** ** The client collaborator

    [rcon.proto.Client] is used through four calls: the constructor, the two
    methods of the context manager protocol and [run].  A collaborator is
    given by what each call answers; the calls made are recorded in order. *)
Record Client := {
  Client_init : string -> Z -> string -> res unit;
  Client_enter : res unit;
  Client_run : string -> res pyval;
  Client_exit : option exn -> res pyval
}.

Inductive call :=
| CallInit (host : string) (port : Z) (passwd : string)
| CallEnter
| CallRun (command : string)
| CallExit (exc : option exn).

(** ** State and effects

    What a handler can change or cause: the window, the error dialogs shown
    (their messages, oldest first) and the calls made on the client. *)
Record world := {
  gui : GUI;
  dialogs : list string;
  calls : list call
}.

(** A computation runs in a world and ends with a value or a raised
    exception; what it did to the world before raising stays done. *)
Definition M (A : Type) : Type := world -> world * res A.

Definition pure {A} (a : A) : M A := fun w => (w, Ret a).
Definition raise {A} (e : exn) : M A := fun w => (w, Raise e).
Definition lift {A} (r : res A) : M A := fun w => (w, r).
Definition bind {A B} (m : M A) (k : A -> M B) : M B :=
  fun w =>
    match m w with
    | (w1, Ret a) => k a w1
    | (w1, Raise e) => (w1, Raise e)
    end.

Notation "x <~ m ;; k" := (bind m (fun x => k))
  (at level 60, m at next level, right associativity).
Notation "m ;;; k" := (bind m (fun _ => k))
  (at level 60, right associativity).

Definition read_gui : M GUI := fun w => (w, Ret (gui w)).
Definition modify_gui (f : GUI -> GUI) : M unit :=
  fun w => ({| gui := f (gui w); dialogs := dialogs w; calls := calls w |}, Ret tt).

(** A call on the collaborator: recorded, then answered. *)
Definition invoke {A} (c : call) (answer : res A) : M A :=
  fun w => ({| gui := gui w; dialogs := dialogs w; calls := (calls w ++ c :: nil)%list |},
            answer).

(** [Gtk.Entry.set_text]: the argument must be a [str]. *)
Definition set_text (field : string -> GUI -> GUI) (v : pyval) : M unit :=
  match v with
  | PyStr s => modify_gui (field s)
  | _ => raise TypeError
  end.

(** [Gtk.CheckButton.set_active]: the argument is taken by its truth value. *)
Definition set_active (v : pyval) : M unit :=
  modify_gui (set_savepw (truthy v)).

(** The [with] statement: [__exit__] is called once the block has been
    entered, with the exception the block raised, if any; a true answer
    suppresses that exception, and the statement then yields no value.  When
    [__enter__] raises, [__exit__] is not called. *)
Definition with_ {A} (enter : M unit) (exit_ : option exn -> M pyval)
    (block : M A) : M (option A) :=
  enter ;;;
  fun w =>
    match block w with
    | (w1, Ret a) => (exit_ None ;;; pure (Some a)) w1
    | (w1, Raise e) =>
        (suppress <~ exit_ (Some e) ;;
         if truthy suppress then pure None else raise e) w1
    end.

(** ** The methods of [GUI] *)

Definition dict_get (json : gmap string pyval) (key : string) (default : pyval)
    : pyval :=
  match json !! key with
  | Some v => v
  | None => default
  end.

(** The [gui_settings] property. *)
Definition gui_settings (self : GUI) : gmap string pyval :=
  let json : gmap string pyval :=
    <["savepw" := PyBool (savepw self)]>
      (<["result" := PyStr (result self)]>
        (<["command" := PyStr (command self)]>
          (<["port" := PyStr (port self)]>
            (<["host" := PyStr (host self)]> ∅)))) in
  if savepw self then <["passwd" := PyStr (passwd self)]> json else json.

(** The setter of [gui_settings]. *)
Definition gui_settings_setter (json : gmap string pyval) : M unit :=
  set_text set_host (dict_get json "host" (PyStr EmptyString)) ;;;
  set_text set_port (dict_get json "port" (PyStr EmptyString)) ;;;
  set_text set_passwd (dict_get json "passwd" (PyStr EmptyString)) ;;;
  set_text set_command (dict_get json "command" (PyStr EmptyString)) ;;;
  set_text set_result (dict_get json "result" (PyStr EmptyString)) ;;;
  set_active (dict_get json "savepw" (PyBool false)).

(** [show_error]: one modal dialog with the message. *)
Definition show_error (message : string) : M unit :=
  fun w => ({| gui := gui w; dialogs := (dialogs w ++ message :: nil)%list;
               calls := calls w |}, Ret tt).

Definition get_rcon_params (self : GUI) : res RCONParams.t :=
  let host := host self in
  if negb (truthy (PyStr host)) then
    Raise (ValueError (PyStr "No host specified." :: nil))
  else
    let port := port self in
    if negb (truthy (PyStr port)) then
      Raise (ValueError (PyStr "No port specified." :: nil))
    else
      let command := command self in
      if negb (truthy (PyStr command)) then
        Raise (ValueError (PyStr "No command entered." :: nil))
      else
        match int port with
        | None => Raise (ValueError (PyStr "Invalid port specified." :: nil))
        | Some port =>
            if negb ((0 <=? port) && (port <=? 65535)) then
              Raise (ValueError (PyStr "Invalid port specified." :: nil))
            else
              Ret (RCONParams.make host port (passwd self) command)
        end.

Definition run_rcon (client : Client) : M pyval :=
  self <~ read_gui ;;
  params <~ lift (get_rcon_params self) ;;
  invoke (CallInit (RCONParams.host params) (RCONParams.port params)
                   (RCONParams.passwd params))
         (Client_init client (RCONParams.host params) (RCONParams.port params)
                      (RCONParams.passwd params)) ;;;
  returned <~ with_ (invoke CallEnter (Client_enter client))
                    (fun exc => invoke (CallExit exc) (Client_exit client exc))
                    (invoke (CallRun (RCONParams.command params))
                            (Client_run client (RCONParams.command params))) ;;
  match returned with
  | Some text => pure text
  | None => pure PyNone
  end.

Definition on_button_clicked (client : Client) : M unit :=
  fun w =>
    match run_rcon client w with
    | (w1, Raise (ValueError args)) =>
        (message <~ lift (join " " args) ;; show_error message) w1
    | (w1, Raise ConnectionRefusedError) => show_error "Connection refused." w1
    | (w1, Raise timeout) => show_error "Connection timed out." w1
    | (w1, Raise RequestIdMismatch) => show_error "Request ID mismatch." w1
    | (w1, Raise WrongPassword) => show_error "Invalid password." w1
    | (w1, Raise e) => (w1, Raise e)
    | (w1, Ret result) => set_text set_result result w1
    end.


(** ** Vocabulary of the statements *)

(** The exception of a failed validation. *)
Definition invalid (message : string) : res RCONParams.t :=
  Raise (ValueError (PyStr message :: nil)).

(** The world [w] after the calls [tr] were made on the client. *)
Definition made (w : world) (tr : list call) : world :=
  {| gui := gui w; dialogs := dialogs w; calls := (calls w ++ tr)%list |}.

(** The world [w] after one more error dialog. *)
Definition shown (w : world) (message : string) : world :=
  {| gui := gui w; dialogs := (dialogs w ++ message :: nil)%list;
     calls := calls w |}.

(** How many of the calls are [__exit__]. *)
Fixpoint exits (tr : list call) : nat :=
  match tr with
  | nil => O
  | CallExit _ :: rest => S (exits rest)
  | _ :: rest => exits rest
  end.

(** What [__exit__] is handed: the exception of the block, if it raised. *)
Definition raised {A} (r : res A) : option exn :=
  match r with
  | Ret _ => None
  | Raise e => Some e
  end.

(** The outcome of the [with] statement of [run_rcon] from the answers of
    [run] and [__exit__]. *)
Definition with_outcome (ran : res pyval) (exited : res pyval) : res pyval :=
  match ran, exited with
  | _, Raise e' => Raise e'
  | Ret text, Ret _ => Ret text
  | Raise e, Ret suppress => if truthy suppress then Ret PyNone else Raise e
  end.

Definition is_digit (a : ascii) : bool :=
  match digit_of a with
  | Some _ => true
  | None => false
  end.

Fixpoint all_digits (s : string) : bool :=
  match s with
  | EmptyString => true
  | String a r => is_digit a && all_digits r
  end.

(** The numerals that [str] writes for the integers from 0 on: ASCII digits
    only, at least one, and no leading zero but for the numeral of 0. *)
Definition canonical_numeral (s : string) : bool :=
  match s with
  | EmptyString => false
  | String a r =>
      if Ascii.eqb a "0" then String.eqb r EmptyString else all_digits s
  end.

(** The window after its settings went through [gui_settings] and back. *)
Definition restored (g : GUI) : GUI :=
  if savepw g then g else set_passwd EmptyString g.

(** *** Sample windows and clients *)

Definition filled (port_text : string) : GUI :=
  {| host := "localhost"; port := port_text; passwd := "secret";
     command := "status"; result := EmptyString; savepw := false |}.

Definition start (g : GUI) : world :=
  {| gui := g; dialogs := nil; calls := nil |}.

(** A client of a server that answers every command with [text]. *)
Definition serving (text : string) : Client :=
  {| Client_init := fun _ _ _ => Ret tt;
     Client_enter := Ret tt;
     Client_run := fun _ => Ret (PyStr text);
     Client_exit := fun _ => Ret PyNone |}.

(** A client whose connection is refused when the context is entered. *)
Definition refusing : Client :=
  {| Client_init := fun _ _ _ => Ret tt;
     Client_enter := Raise ConnectionRefusedError;
     Client_run := fun _ => Ret (PyStr EmptyString);
     Client_exit := fun _ => Ret PyNone |}.

(** A client whose login is rejected when the context is entered. *)
Definition rejecting : Client :=
  {| Client_init := fun _ _ _ => Ret tt;
     Client_enter := Raise WrongPassword;
     Client_run := fun _ => Ret (PyStr EmptyString);
     Client_exit := fun _ => Ret PyNone |}.

(** A client whose [run] raises a [ValueError] of its own. *)
Definition garbled : Client :=
  {| Client_init := fun _ _ _ => Ret tt;
     Client_enter := Ret tt;
     Client_run := fun _ => Raise (ValueError (PyStr "invalid payload" :: nil));
     Client_exit := fun _ => Ret PyNone |}.

(** ** The cache file, the log and the main loop

    What [load_gui_settings], [save_gui_settings], [terminate] and
    [GUI.__init__] work on besides the window. *)

Definition FileNotFoundError : exn := OtherError "FileNotFoundError".
Definition PermissionError : exn := OtherError "PermissionError".
Definition AttributeError : exn := OtherError "AttributeError".

(** [except cls:] for a class outside the five of [exn]. *)
Definition is_instance (e : exn) (cls : string) : bool :=
  match e with
  | OtherError c => String.eqb c cls
  | _ => false
  end.

(** What [json.load] makes of the text of a file: a [ValueError] with some
    arguments for text that is no JSON document, a [dict] for a JSON object,
    and some other object for any other document.  The objects modelled are those whose
    values are strings, booleans, integers or null. *)
Inductive document :=
| Garbage (args : list pyval)
| JsonObject (json : gmap string pyval)
| JsonOther.

(** [CACHE_FILE] as the file system has it: its text, if the file exists;
    the exception that opening it for reading raises on account of the path,
    if any; the exception that opening it for writing raises, if any. *)
Record cache_file := {
  stored : option document;
  read_error : option exn;
  write_error : option exn
}.

Inductive level := WARNING | ERROR.

(** The state of the application: the window with its effects, the cache
    file, the records of [LOGGER] (level and format; the argument is always
    [CACHE_FILE]), and how often [Gtk.main_quit] was called. *)
Record app := {
  window : world;
  cache : cache_file;
  logged : list (level * string);
  quits : nat
}.

Definition App (A : Type) : Type := app -> app * res A.

Definition and_then {A B} (m : App A) (k : A -> App B) : App B :=
  fun a =>
    match m a with
    | (a1, Ret x) => k x a1
    | (a1, Raise e) => (a1, Raise e)
    end.

(** A computation on the window, run in the application. *)
Definition in_window {A} (m : M A) : App A :=
  fun a =>
    match m (window a) with
    | (w1, r) => ({| window := w1; cache := cache a; logged := logged a;
                     quits := quits a |}, r)
    end.

Definition LOGGER_log (lvl : level) (format : string) : App unit :=
  fun a => ({| window := window a; cache := cache a;
               logged := (logged a ++ (lvl, format) :: nil)%list;
               quits := quits a |}, Ret tt).

(** [CACHE_FILE.open('r')], then [load(cache)]. *)
Definition open_and_load : App (gmap string pyval + unit) :=
  fun a =>
    match read_error (cache a) with
    | Some e => (a, Raise e)
    | None =>
        match stored (cache a) with
        | None => (a, Raise FileNotFoundError)
        | Some (Garbage args) => (a, Raise (ValueError args))
        | Some (JsonObject json) => (a, Ret (inl json))
        | Some JsonOther => (a, Ret (inr tt))
        end
    end.

(** The assignment [self.gui_settings = ...]: the setter calls [json.get],
    which only a [dict] has. *)
Definition assign_gui_settings (loaded : gmap string pyval + unit) : App unit :=
  match loaded with
  | inl json => in_window (gui_settings_setter json)
  | inr _ => fun a => (a, Raise AttributeError)
  end.

Definition load_gui_settings : App unit :=
  fun a =>
    match and_then open_and_load assign_gui_settings a with
    | (a1, Raise e) =>
        if is_instance e "FileNotFoundError"
        then LOGGER_log WARNING "Cache file not found: %s" a1
        else if is_instance e "PermissionError"
        then LOGGER_log ERROR "Insufficient permissions to read: %s" a1
        else match e with
             | ValueError _ =>
                 LOGGER_log ERROR "Cache file contains garbage: %s" a1
             | _ => (a1, Raise e)
             end
    | (a1, Ret _) => (a1, Ret tt)
    end.

(** [CACHE_FILE.open('w')], then [dump(self.gui_settings, cache)]. *)
Definition open_and_dump : App unit :=
  fun a =>
    match write_error (cache a) with
    | Some e => (a, Raise e)
    | None =>
        ({| window := window a;
            cache := {| stored := Some (JsonObject (gui_settings (gui (window a))));
                        read_error := read_error (cache a);
                        write_error := write_error (cache a) |};
            logged := logged a; quits := quits a |}, Ret tt)
    end.

Definition save_gui_settings : App unit :=
  fun a =>
    match open_and_dump a with
    | (a1, Raise e) =>
        if is_instance e "PermissionError"
        then LOGGER_log ERROR "Insufficient permissions to read: %s" a1
        else (a1, Raise e)
    | (a1, Ret _) => (a1, Ret tt)
    end.

Definition Gtk_main_quit : App unit :=
  fun a => ({| window := window a; cache := cache a; logged := logged a;
               quits := S (quits a) |}, Ret tt).

Definition terminate : App unit :=
  and_then save_gui_settings (fun _ => Gtk_main_quit).

(** The widgets as [GUI.__init__] creates them: empty entries, and a check
    button that is not active. *)
Definition fresh_widgets : GUI :=
  {| host := EmptyString; port := EmptyString; passwd := EmptyString;
     command := EmptyString; result := EmptyString; savepw := false |}.

Definition GUI_init : App unit :=
  and_then (in_window (modify_gui (fun _ => fresh_widgets)))
           (fun _ => load_gui_settings).

(** ** Vocabulary of the further statements *)

(** A dictionary entry that [set_text] accepts: a [str], or no entry, for
    which the default is taken. *)
Definition is_text (entry : option pyval) : bool :=
  match entry with
  | Some (PyStr _) => true
  | Some _ => false
  | None => true
  end.

Definition texts_ok (json : gmap string pyval) : bool :=
  is_text (json !! "host") && is_text (json !! "port")
  && is_text (json !! "passwd") && is_text (json !! "command")
  && is_text (json !! "result").

Definition text_of (json : gmap string pyval) (key : string) : string :=
  match json !! key with
  | Some (PyStr s) => s
  | _ => EmptyString
  end.

(** The window that a dictionary describes. *)
Definition loaded_widgets (json : gmap string pyval) : GUI :=
  {| host := text_of json "host"; port := text_of json "port";
     passwd := text_of json "passwd"; command := text_of json "command";
     result := text_of json "result";
     savepw := truthy (dict_get json "savepw" (PyBool false)) |}.

Definition with_gui (g : GUI) (a : app) : app :=
  {| window := {| gui := g; dialogs := dialogs (window a);
                  calls := calls (window a) |};
     cache := cache a; logged := logged a; quits := quits a |}.

Definition with_stored (d : document) (a : app) : app :=
  {| window := window a;
     cache := {| stored := Some d; read_error := read_error (cache a);
                 write_error := write_error (cache a) |};
     logged := logged a; quits := quits a |}.

Definition with_logged (lvl : level) (format : string) (a : app) : app :=
  {| window := window a; cache := cache a;
     logged := (logged a ++ (lvl, format) :: nil)%list; quits := quits a |}.

Definition with_quit (a : app) : app :=
  {| window := window a; cache := cache a; logged := logged a;
     quits := S (quits a) |}.

(** *** Sample states *)

Definition plain_file (content : option document) : cache_file :=
  {| stored := content; read_error := None; write_error := None |}.

Definition running (g : GUI) (f : cache_file) : app :=
  {| window := start g; cache := f; logged := nil; quits := O |}.

(** A client that serves the command but fails to close. *)
Definition failing_to_close : Client :=
  {| Client_init := fun _ _ _ => Ret tt;
     Client_enter := Ret tt;
     Client_run := fun _ => Ret (PyStr "players: 3");
     Client_exit := fun _ => Raise timeout |}.

(** A client whose [__exit__] swallows the exception of the block. *)
Definition swallowing : Client :=
  {| Client_init := fun _ _ _ => Ret tt;
     Client_enter := Ret tt;
     Client_run := fun _ => Raise RequestIdMismatch;
     Client_exit := fun _ => Ret (PyBool true) |}.

(** A client whose [run] raises a [ValueError] with an [int] argument. *)
Definition out_of_bounds : Client :=
  {| Client_init := fun _ _ _ => Ret tt;
     Client_enter := Ret tt;
     Client_run := fun _ =>
       Raise (ValueError (PyStr "Signed int32 out of bounds:" :: PyInt 4294967296
                          :: nil));
     Client_exit := fun _ => Ret PyNone |}.

(** A client whose [run] raises a [ValueError] with two texts. *)
Definition wordy : Client :=
  {| Client_init := fun _ _ _ => Ret tt;
     Client_enter := Ret tt;
     Client_run := fun _ =>
       Raise (ValueError (PyStr "bad" :: PyStr "packet" :: nil));
     Client_exit := fun _ => Ret PyNone |}.

(** A cache file in a directory that does not exist. *)
Definition no_cache_directory : cache_file :=
  {| stored := None; read_error := Some FileNotFoundError;
     write_error := Some FileNotFoundError |}.

(** ** Facts about [get_rcon_params] *)

Section Validation.

Implicit Types (g : GUI) (s : string) (n : Z).

Lemma truthy_empty : truthy (PyStr EmptyString) = false.
Proof. reflexivity. Qed.

Lemma truthy_nonempty s : s <> EmptyString -> truthy (PyStr s) = true.
Proof.
  intros Hs. simpl. destruct (String.eqb_spec s EmptyString); [contradiction | reflexivity].
Qed.

Lemma in_range_true n : 0 <= n <= 65535 -> (0 <=? n) && (n <=? 65535) = true.
Proof. intros [H0 H1]. apply andb_true_intro. split; apply Z.leb_le; assumption. Qed.

Lemma in_range_false n : ~ 0 <= n <= 65535 -> (0 <=? n) && (n <=? 65535) = false.
Proof.
  intros Hn. destruct (Z.leb_spec 0 n), (Z.leb_spec n 65535); simpl; trivial.
  exfalso. apply Hn. lia.
Qed.

(** Past the three emptiness checks, the outcome is decided by the port. *)
Lemma get_rcon_params_filled g :
  host g <> EmptyString -> port g <> EmptyString -> command g <> EmptyString ->
  get_rcon_params g =
    match int (port g) with
    | None => invalid "Invalid port specified."
    | Some n =>
        if (0 <=? n) && (n <=? 65535)
        then Ret (RCONParams.make (host g) n (passwd g) (command g))
        else invalid "Invalid port specified."
    end.
Proof.
  intros Hh Hp Hc. unfold get_rcon_params.
  rewrite (truthy_nonempty _ Hh), (truthy_nonempty _ Hp), (truthy_nonempty _ Hc).
  simpl. destruct (int (port g)) as [n|]; [|reflexivity].
  destruct ((0 <=? n) && (n <=? 65535)); reflexivity.
Qed.

(** Whatever [get_rcon_params] returns was read off the widgets. *)
Lemma get_rcon_params_Ret g p :
  get_rcon_params g = Ret p ->
  host g <> EmptyString /\ port g <> EmptyString /\ command g <> EmptyString /\
  int (port g) = Some (RCONParams.port p) /\
  0 <= RCONParams.port p <= 65535 /\
  p = RCONParams.make (host g) (RCONParams.port p) (passwd g) (command g).
Proof.
  unfold get_rcon_params. simpl.
  destruct (String.eqb_spec (host g) EmptyString); simpl; [discriminate|].
  destruct (String.eqb_spec (port g) EmptyString); simpl; [discriminate|].
  destruct (String.eqb_spec (command g) EmptyString); simpl; [discriminate|].
  destruct (int (port g)) as [k|]; [|discriminate].
  destruct (Z.leb_spec 0 k), (Z.leb_spec k 65535); simpl; try discriminate.
  intros [= <-]. simpl. repeat split; trivial.
Qed.

(** A failed validation raises a [ValueError] with one of the four
    messages as its only argument. *)
Lemma get_rcon_params_Raise g e :
  get_rcon_params g = Raise e ->
  exists message,
    e = ValueError (PyStr message :: nil) /\
    (message = "No host specified." \/ message = "No port specified." \/
     message = "No command entered." \/ message = "Invalid port specified.").
Proof.
  unfold get_rcon_params.
  destruct (negb (truthy (PyStr (host g)))); [intros [= <-]; eauto 6|].
  destruct (negb (truthy (PyStr (port g)))); [intros [= <-]; eauto 6|].
  destruct (negb (truthy (PyStr (command g)))); [intros [= <-]; eauto 6|].
  destruct (int (port g)) as [k|]; [|intros [= <-]; eauto 6].
  destruct (negb _); [intros [= <-]; eauto 6|discriminate].
Qed.

End Validation.

(** ** Facts about [int] and [str] *)

Section Numerals.
Implicit Types (d : uint) (s : string) (n : Z).

Lemma transform_numeral d :
  TransformDecimalAndSpaceToASCII (NilEmpty.string_of_uint d)
  = NilEmpty.string_of_uint d.
Proof. induction d; simpl; [reflexivity | rewrite IHd; reflexivity ..]. Qed.

Lemma scan_digits_numeral d prev :
  is_underscore prev = false ->
  scan_digits prev (NilEmpty.string_of_uint d) = Some (d, EmptyString).
Proof.
  revert prev. induction d; intros prev Hprev; simpl;
    [rewrite Hprev; reflexivity | rewrite IHd by reflexivity; reflexivity ..].
Qed.

Lemma PyLong_FromString_numeral d :
  d <> Nil ->
  PyLong_FromString (NilEmpty.string_of_uint d) = Some (Z.of_int (Pos d)).
Proof.
  intros Hd. destruct d; [contradiction | ..];
    unfold PyLong_FromString; simpl;
    rewrite scan_digits_numeral by reflexivity; reflexivity.
Qed.

Lemma PyLong_FromString_minus d :
  d <> Nil ->
  PyLong_FromString (String "-" (NilEmpty.string_of_uint d))
  = Some (Z.of_int (Neg d)).
Proof.
  intros Hd. destruct d; [contradiction | ..];
    unfold PyLong_FromString; simpl;
    rewrite scan_digits_numeral by reflexivity; reflexivity.
Qed.

Lemma int_str n : int (str n) = Some n.
Proof.
  unfold int, str. destruct n as [|p|p]; [reflexivity | ..]; simpl;
    pose proof (DecimalPos.Unsigned.to_uint_nonnil p) as Hp.
  - replace (NilZero.string_of_uint (Pos.to_uint p))
      with (NilEmpty.string_of_uint (Pos.to_uint p))
      by (destruct (Pos.to_uint p); [contradiction | reflexivity ..]).
    rewrite transform_numeral, PyLong_FromString_numeral by assumption.
    f_equal. apply (DecimalZ.of_to (Z.pos p)).
  - replace (NilZero.string_of_uint (Pos.to_uint p))
      with (NilEmpty.string_of_uint (Pos.to_uint p))
      by (destruct (Pos.to_uint p); [contradiction | reflexivity ..]).
    change (PyLong_FromString
              (String "-" (TransformDecimalAndSpaceToASCII
                             (NilEmpty.string_of_uint (Pos.to_uint p))))
            = Some (Z.neg p)).
    rewrite transform_numeral, PyLong_FromString_minus by assumption.
    f_equal. apply (DecimalZ.of_to (Z.neg p)).
Qed.


Lemma all_digits_numeral d : all_digits (NilEmpty.string_of_uint d) = true.
Proof. induction d; simpl; [reflexivity | exact IHd ..]. Qed.

Lemma numeral_of_digits s :
  all_digits s = true -> exists d, NilEmpty.string_of_uint d = s.
Proof.
  induction s as [|a r IH]; simpl.
  - intros _. exists Nil. reflexivity.
  - intros H. apply andb_prop in H as [Ha Hr]. destruct (IH Hr) as [d <-].
    unfold is_digit in Ha. destruct (digit_of a) as [D|] eqn:HD; [|discriminate].
    exists (D d).
    destruct a as [[|] [|] [|] [|] [|] [|] [|] [|]]; try discriminate HD;
      injection HD as <-; reflexivity.
Qed.

Lemma to_uint_unorm p : unorm (Pos.to_uint p) = Pos.to_uint p.
Proof.
  rewrite <- (DecimalPos.Unsigned.to_of (Pos.to_uint p)), DecimalPos.Unsigned.of_to. reflexivity.
Qed.

Lemma canonical_to_uint p :
  canonical_numeral (NilEmpty.string_of_uint (Pos.to_uint p)) = true.
Proof.
  pose proof (to_uint_unorm p) as Hu.
  pose proof (DecimalPos.Unsigned.to_uint_nonnil p) as Hn.
  pose proof (DecimalPos.Unsigned.to_uint_nonzero p) as Hz.
  destruct (Pos.to_uint p) as [|d|d|d|d|d|d|d|d|d|d];
    [contradiction | | apply (all_digits_numeral (D1 d))
    | apply (all_digits_numeral (D2 d)) | apply (all_digits_numeral (D3 d))
    | apply (all_digits_numeral (D4 d)) | apply (all_digits_numeral (D5 d))
    | apply (all_digits_numeral (D6 d)) | apply (all_digits_numeral (D7 d))
    | apply (all_digits_numeral (D8 d)) | apply (all_digits_numeral (D9 d))].
  exfalso. rewrite unorm_D0 in Hu. unfold unorm in Hu.
  destruct (nzhead d) eqn:Hd; [congruence | apply (nzhead_nonzero d d); congruence ..].
Qed.

Lemma canonical_str n : 0 <= n -> canonical_numeral (str n) = true.
Proof.
  intros Hn. destruct n as [|p|p]; [reflexivity | | lia].
  unfold str. simpl.
  replace (NilZero.string_of_uint (Pos.to_uint p))
    with (NilEmpty.string_of_uint (Pos.to_uint p))
    by (pose proof (DecimalPos.Unsigned.to_uint_nonnil p);
        destruct (Pos.to_uint p); [contradiction | reflexivity ..]).
  apply canonical_to_uint.
Qed.

Lemma str_int_canonical s n :
  canonical_numeral s = true -> int s = Some n -> str n = s.
Proof.
  destruct s as [|a r]; [discriminate|]. unfold canonical_numeral.
  destruct (Ascii.eqb_spec a "0") as [->|Ha].
  - intros Hr. apply String.eqb_eq in Hr. subst r. intros [= <-]. reflexivity.
  - intros Hs. destruct (numeral_of_digits _ Hs) as [d Hd].
    rewrite <- Hd. unfold int.
    destruct d as [|d|d|d|d|d|d|d|d|d|d]; try discriminate Hd;
      try (injection Hd as <- _; contradiction Ha; reflexivity);
      rewrite transform_numeral, PyLong_FromString_numeral by discriminate;
      intros [= <-]; unfold str;
      match goal with
      | |- context [Z.of_uint ?u] => change (Z.of_uint u) with (Z.of_int (Pos u))
      end;
      rewrite DecimalZ.to_of; reflexivity.
Qed.

(** [str(int(s))] gives [s] back exactly for the canonical numerals. *)
Lemma str_int_iff s n :
  int s = Some n -> 0 <= n -> (str n = s <-> canonical_numeral s = true).
Proof.
  intros Hi Hn. split.
  - intros <-. apply canonical_str. assumption.
  - intros Hs. apply str_int_canonical; assumption.
Qed.
End Numerals.

(** ** Facts about [run_rcon] and [on_button_clicked] *)

Section Runner.
Implicit Types (c : Client) (w : world) (p : RCONParams.t) (e : exn).

Lemma made_made w tr1 tr2 : made (made w tr1) tr2 = made w (tr1 ++ tr2)%list.
Proof. unfold made. simpl. rewrite <- app_assoc. reflexivity. Qed.

Lemma invoke_made {A} (k : call) (r : res A) w : invoke k r w = (made w (k :: nil), r).
Proof. reflexivity. Qed.

Lemma run_rcon_invalid c w e :
  get_rcon_params (gui w) = Raise e -> run_rcon c w = (w, Raise e).
Proof. intros H. unfold run_rcon, bind, read_gui, lift. rewrite H. reflexivity. Qed.

Lemma run_rcon_init_raises c w p e :
  get_rcon_params (gui w) = Ret p ->
  Client_init c (RCONParams.host p) (RCONParams.port p) (RCONParams.passwd p)
    = Raise e ->
  run_rcon c w
  = (made w (CallInit (RCONParams.host p) (RCONParams.port p)
                      (RCONParams.passwd p) :: nil), Raise e).
Proof.
  intros Hp Hi. unfold run_rcon, bind, read_gui, lift. rewrite Hp.
  rewrite invoke_made, Hi. reflexivity.
Qed.

Lemma run_rcon_enter_raises c w p e :
  get_rcon_params (gui w) = Ret p ->
  Client_init c (RCONParams.host p) (RCONParams.port p) (RCONParams.passwd p)
    = Ret tt ->
  Client_enter c = Raise e ->
  run_rcon c w
  = (made w (CallInit (RCONParams.host p) (RCONParams.port p)
                      (RCONParams.passwd p) :: CallEnter :: nil), Raise e).
Proof.
  intros Hp Hi He. unfold run_rcon, with_, bind, read_gui, lift. rewrite Hp.
  rewrite !invoke_made, Hi, He, made_made. reflexivity.
Qed.

Lemma run_rcon_entered c w p :
  get_rcon_params (gui w) = Ret p ->
  Client_init c (RCONParams.host p) (RCONParams.port p) (RCONParams.passwd p)
    = Ret tt ->
  Client_enter c = Ret tt ->
  let ran := Client_run c (RCONParams.command p) in
  run_rcon c w
  = (made w (CallInit (RCONParams.host p) (RCONParams.port p)
                      (RCONParams.passwd p)
             :: CallEnter :: CallRun (RCONParams.command p)
             :: CallExit (raised ran) :: nil),
     with_outcome ran (Client_exit c (raised ran))).
Proof.
  intros Hp Hi He ran.
  unfold run_rcon, with_, bind, read_gui, lift, pure, raise, invoke, made.
  rewrite Hp, Hi, He. simpl. fold ran.
  destruct ran as [text|e]; simpl;
    destruct (Client_exit c _) as [v|e']; simpl;
    try destruct (truthy v); rewrite <- !app_assoc; reflexivity.
Qed.

Lemma on_button_clicked_raised c w w1 e :
  run_rcon c w = (w1, Raise e) ->
  on_button_clicked c w =
    match e with
    | ValueError args =>
        match join " " args with
        | Ret message => (shown w1 message, Ret tt)
        | Raise e' => (w1, Raise e')
        end
    | ConnectionRefusedError => (shown w1 "Connection refused.", Ret tt)
    | timeout => (shown w1 "Connection timed out.", Ret tt)
    | RequestIdMismatch => (shown w1 "Request ID mismatch.", Ret tt)
    | WrongPassword => (shown w1 "Invalid password.", Ret tt)
    | OtherError cls => (w1, Raise (OtherError cls))
    end.
Proof.
  intros H. unfold on_button_clicked. rewrite H.
  destruct e as [args| | | | |cls]; reflexivity.
Qed.

Lemma on_button_clicked_returned c w w1 v :
  run_rcon c w = (w1, Ret v) ->
  on_button_clicked c w = set_text set_result v w1.
Proof. intros H. unfold on_button_clicked. rewrite H. reflexivity. Qed.

Lemma run_rcon_gui c w : gui (fst (run_rcon c w)) = gui w.
Proof.
  destruct (get_rcon_params (gui w)) as [p|e] eqn:Hp.
  2: { rewrite (run_rcon_invalid _ _ _ Hp). reflexivity. }
  destruct (Client_init c (RCONParams.host p) (RCONParams.port p)
                        (RCONParams.passwd p)) as [[]|e] eqn:Hi.
  2: { rewrite (run_rcon_init_raises _ _ _ _ Hp Hi). reflexivity. }
  destruct (Client_enter c) as [[]|e] eqn:He.
  2: { rewrite (run_rcon_enter_raises _ _ _ _ Hp Hi He). reflexivity. }
  rewrite (run_rcon_entered _ _ _ Hp Hi He). reflexivity.
Qed.

End Runner.

(** ** Facts about [gui_settings] *)

Lemma gui_settings_lookup (g : GUI) :
  gui_settings g !! "host" = Some (PyStr (host g)) /\
  gui_settings g !! "port" = Some (PyStr (port g)) /\
  gui_settings g !! "command" = Some (PyStr (command g)) /\
  gui_settings g !! "result" = Some (PyStr (result g)) /\
  gui_settings g !! "savepw" = Some (PyBool (savepw g)) /\
  gui_settings g !! "passwd"
    = (if savepw g then Some (PyStr (passwd g)) else None).
Proof.
  unfold gui_settings. destruct (savepw g); repeat split;
    repeat (rewrite lookup_insert_ne by discriminate);
    rewrite ?lookup_insert_eq, ?lookup_empty; reflexivity.
Qed.


(** ** The claims *)

(** C1, as amended.  [on_button_clicked] handles a fault raised by
    [run_rcon] by its exception class.  A [ValueError] - every validation
    failure, and also any other [ValueError] raised during the session -
    shows its arguments joined by single spaces, which for a validation
    failure is its validation message; when an argument is not a string the
    join raises [TypeError], and that propagates.  [ConnectionRefusedError]
    shows "Connection refused.", [socket.timeout] shows "Connection timed
    out.", [RequestIdMismatch] shows "Request ID mismatch." and
    [WrongPassword] shows "Invalid password."; each shows one dialog and the
    handler returns.  A fault of any other class propagates to the caller
    as it is, with no dialog. *)
Theorem on_button_clicked_maps_faults (c : Client) (w w1 : world) (e : exn) :
  run_rcon c w = (w1, Raise e) ->
  (get_rcon_params (gui w) = Raise e ->
     exists message,
       e = ValueError (PyStr message :: nil) /\
       on_button_clicked c w = (shown w message, Ret tt)) /\
  (forall args message,
     e = ValueError args -> join " " args = Ret message ->
     on_button_clicked c w = (shown w1 message, Ret tt)) /\
  (forall args e',
     e = ValueError args -> join " " args = Raise e' ->
     on_button_clicked c w = (w1, Raise e')) /\
  (e = ConnectionRefusedError ->
     on_button_clicked c w = (shown w1 "Connection refused.", Ret tt)) /\
  (e = timeout ->
     on_button_clicked c w = (shown w1 "Connection timed out.", Ret tt)) /\
  (e = RequestIdMismatch ->
     on_button_clicked c w = (shown w1 "Request ID mismatch.", Ret tt)) /\
  (e = WrongPassword ->
     on_button_clicked c w = (shown w1 "Invalid password.", Ret tt)) /\
  (forall cls,
     e = OtherError cls -> on_button_clicked c w = (w1, Raise e)).
Proof.
  intros H. pose proof (on_button_clicked_raised _ _ _ _ H) as Hc.
  repeat split.
  - intros Hv. destruct (get_rcon_params_Raise _ _ Hv) as [message [-> _]].
    exists message. split; [reflexivity|].
    rewrite (run_rcon_invalid c _ _ Hv) in H. injection H as <-. exact Hc.
  - intros args message -> Hj. rewrite Hj in Hc. exact Hc.
  - intros args e' -> Hj. rewrite Hj in Hc. exact Hc.
  - intros ->. exact Hc.
  - intros ->. exact Hc.
  - intros ->. exact Hc.
  - intros ->. exact Hc.
  - intros cls ->. exact Hc.
Qed.

(** A refused connection on valid input: one dialog, "Connection refused.". *)
Lemma on_button_clicked_maps_faults_witness :
  on_button_clicked refusing (start (filled "27015"))
  = (shown (made (start (filled "27015"))
                 (CallInit "localhost" 27015 "secret" :: CallEnter :: nil))
           "Connection refused.", Ret tt).
Proof.
  apply (on_button_clicked_maps_faults refusing (start (filled "27015"))
           (made (start (filled "27015"))
                 (CallInit "localhost" 27015 "secret" :: CallEnter :: nil))
           ConnectionRefusedError); reflexivity.
Defined.

(** C1, as stated, fails.  On valid input, so with no validation failure, a
    client whose [run] raises a [ValueError] makes [run_rcon] raise a fault
    that is in none of the five categories; [on_button_clicked] does not let
    it propagate but returns after showing its argument in a dialog. *)
Lemma on_button_clicked_converts_client_ValueError :
  get_rcon_params (gui (start (filled "27015")))
    = Ret (RCONParams.make "localhost" 27015 "secret" "status") /\
  snd (run_rcon garbled (start (filled "27015")))
    = Raise (ValueError (PyStr "invalid payload" :: nil)) /\
  snd (on_button_clicked garbled (start (filled "27015"))) = Ret tt /\
  dialogs (fst (on_button_clicked garbled (start (filled "27015"))))
    = "invalid payload" :: nil.
Proof. repeat split. Qed.

(** C2. The checks of [get_rcon_params] come in the order host emptiness,
    port emptiness, command emptiness, port parseability, port range, and the
    message raised is that of the first check that fails: an empty host gives
    "No host specified." whatever the other fields are; with a host, an empty
    port gives "No port specified."; with host and port, an empty command
    gives "No command entered."; with all three, a port that [int] rejects or
    that lies outside 0..65535 gives "Invalid port specified.". *)
Theorem get_rcon_params_first_failing_check (g : GUI) :
  (host g = EmptyString -> get_rcon_params g = invalid "No host specified.") /\
  (host g <> EmptyString -> port g = EmptyString ->
     get_rcon_params g = invalid "No port specified.") /\
  (host g <> EmptyString -> port g <> EmptyString -> command g = EmptyString ->
     get_rcon_params g = invalid "No command entered.") /\
  (host g <> EmptyString -> port g <> EmptyString ->
   command g <> EmptyString -> int (port g) = None ->
     get_rcon_params g = invalid "Invalid port specified.") /\
  (forall n : Z,
     host g <> EmptyString -> port g <> EmptyString ->
     command g <> EmptyString ->
     int (port g) = Some n -> ~ 0 <= n <= 65535 ->
     get_rcon_params g = invalid "Invalid port specified.").
Proof.
  repeat split.
  - intros Hh. unfold get_rcon_params. rewrite Hh. reflexivity.
  - intros Hh Hp. unfold get_rcon_params.
    rewrite (truthy_nonempty _ Hh), Hp. reflexivity.
  - intros Hh Hp Hc. unfold get_rcon_params.
    rewrite (truthy_nonempty _ Hh), (truthy_nonempty _ Hp), Hc. reflexivity.
  - intros Hh Hp Hc Hi. rewrite get_rcon_params_filled by assumption.
    rewrite Hi. reflexivity.
  - intros n Hh Hp Hc Hi Hn. rewrite get_rcon_params_filled by assumption.
    rewrite Hi, (in_range_false _ Hn). reflexivity.
Qed.

(** The five checks, each failing first on an input of its own: everything
    empty; no port and no command; no command and a bad port; a port that is
    no number; a port out of range. *)
Lemma get_rcon_params_first_failing_check_witness :
  get_rcon_params
    {| host := EmptyString; port := EmptyString; passwd := EmptyString;
       command := EmptyString; result := EmptyString; savepw := false |}
    = invalid "No host specified." /\
  get_rcon_params
    {| host := "localhost"; port := EmptyString; passwd := EmptyString;
       command := EmptyString; result := EmptyString; savepw := false |}
    = invalid "No port specified." /\
  get_rcon_params
    {| host := "localhost"; port := "abc"; passwd := EmptyString;
       command := EmptyString; result := EmptyString; savepw := false |}
    = invalid "No command entered." /\
  get_rcon_params
    {| host := "localhost"; port := "abc"; passwd := EmptyString;
       command := "status"; result := EmptyString; savepw := false |}
    = invalid "Invalid port specified." /\
  get_rcon_params
    {| host := "localhost"; port := "65536"; passwd := EmptyString;
       command := "status"; result := EmptyString; savepw := false |}
    = invalid "Invalid port specified.".
Proof.
  split; [|split; [|split; [|split]]].
  - apply (get_rcon_params_first_failing_check
             {| host := EmptyString; port := EmptyString; passwd := EmptyString;
                command := EmptyString; result := EmptyString;
                savepw := false |}).
    reflexivity.
  - apply (get_rcon_params_first_failing_check
             {| host := "localhost"; port := EmptyString; passwd := EmptyString;
                command := EmptyString; result := EmptyString;
                savepw := false |}).
    + discriminate.
    + reflexivity.
  - apply (get_rcon_params_first_failing_check
             {| host := "localhost"; port := "abc"; passwd := EmptyString;
                command := EmptyString; result := EmptyString;
                savepw := false |}).
    + discriminate.
    + discriminate.
    + reflexivity.
  - apply (get_rcon_params_first_failing_check
             {| host := "localhost"; port := "abc"; passwd := EmptyString;
                command := "status"; result := EmptyString; savepw := false |}).
    + discriminate.
    + discriminate.
    + discriminate.
    + reflexivity.
  - apply (get_rcon_params_first_failing_check
             {| host := "localhost"; port := "65536"; passwd := EmptyString;
                command := "status"; result := EmptyString; savepw := false |})
      with (n := 65536).
    + discriminate.
    + discriminate.
    + discriminate.
    + reflexivity.
    + simpl. lia.
Defined.

(** C3, as amended.  When validation succeeds, the parameters carry the
    host, password and command texts exactly, and their port is [int] of the
    port text; [int (str port)] is the port again; and [str port] is the
    port text exactly when that text is the canonical numeral: ASCII digits
    only, with no sign, white space, underscore or leading zero. *)
Theorem get_rcon_params_roundtrip (g : GUI) (p : RCONParams.t) :
  get_rcon_params g = Ret p ->
  RCONParams.host p = host g /\
  RCONParams.passwd p = passwd g /\
  RCONParams.command p = command g /\
  int (port g) = Some (RCONParams.port p) /\
  int (str (RCONParams.port p)) = Some (RCONParams.port p) /\
  (str (RCONParams.port p) = port g <-> canonical_numeral (port g) = true).
Proof.
  intros H. destruct (get_rcon_params_Ret _ _ H) as (_ & _ & _ & Hi & Hr & ->).
  simpl in *. repeat split; trivial.
  - apply int_str.
  - apply (str_int_iff _ _ Hi). lia.
  - apply (str_int_iff _ _ Hi). lia.
Qed.

(** The port text 27015 is canonical and is written back as it was. *)
Lemma get_rcon_params_roundtrip_witness :
  str 27015 = "27015" <-> canonical_numeral "27015" = true.
Proof.
  apply (get_rcon_params_roundtrip (filled "27015")
           (RCONParams.make "localhost" 27015 "secret" "status") eq_refl).
Defined.

(** C3, as stated, fails: the port text 080 passes validation as port 80,
    and [str 80] is not that text. *)
Lemma get_rcon_params_leading_zero :
  get_rcon_params (filled "080")
    = Ret (RCONParams.make "localhost" 80 "secret" "status") /\
  str 80 <> port (filled "080").
Proof. split; [reflexivity | discriminate]. Qed.

(** C4, as amended.  On validated parameters, once the client is
    constructed and its context entered, [run_rcon] makes exactly four
    calls - the constructor, [__enter__], [run], [__exit__] - so [__exit__]
    is called exactly once, last, and it is handed the exception [run]
    raised, if any; this whatever [run] and [__exit__] answer, and the
    outcome of [run_rcon] is then that of the [with] statement.  When the
    constructor raises, or the constructor returns and [__enter__] raises,
    [run_rcon] calls [__exit__] not at all and the fault propagates:
    [run_rcon] raises that very exception. *)
Theorem run_rcon_exit_once (c : Client) (w : world) (p : RCONParams.t) :
  get_rcon_params (gui w) = Ret p ->
  let init := Client_init c (RCONParams.host p) (RCONParams.port p)
                          (RCONParams.passwd p) in
  exists tr : list call,
    fst (run_rcon c w) = made w tr /\
    (init = Ret tt -> Client_enter c = Ret tt ->
       tr = CallInit (RCONParams.host p) (RCONParams.port p)
                     (RCONParams.passwd p)
            :: CallEnter :: CallRun (RCONParams.command p)
            :: CallExit (raised (Client_run c (RCONParams.command p))) :: nil
       /\ exits tr = 1%nat
       /\ snd (run_rcon c w)
          = with_outcome
              (Client_run c (RCONParams.command p))
              (Client_exit c (raised (Client_run c (RCONParams.command p)))))
    /\
    (forall e, init = Raise e \/ Client_enter c = Raise e -> exits tr = 0%nat)
    /\
    (forall e,
       init = Raise e \/ (init = Ret tt /\ Client_enter c = Raise e) ->
       snd (run_rcon c w) = Raise e).
Proof.
  intros Hp init.
  destruct init as [[]|ei] eqn:Hi; subst init.
  - destruct (Client_enter c) as [[]|ee] eqn:He.
    + eexists. rewrite (run_rcon_entered _ _ _ Hp Hi He). simpl.
      split; [reflexivity|]. split; [repeat split; reflexivity|].
      split; [intros e [?|?]; discriminate|].
      intros e [?|[_ ?]]; discriminate.
    + eexists. rewrite (run_rcon_enter_raises _ _ _ _ Hp Hi He). simpl.
      split; [reflexivity|]. split; [discriminate|].
      split; [reflexivity|].
      intros e [?|[_ H]]; [discriminate | injection H as <-; reflexivity].
  - eexists. rewrite (run_rcon_init_raises _ _ _ _ Hp Hi). simpl.
    split; [reflexivity|]. split; [discriminate|].
    split; [reflexivity|].
    intros e [H|[? _]]; [injection H as <-; reflexivity | discriminate].
Qed.

(** A served command: one [__exit__] among the calls, and the answer of the
    server returned; a refused connection: the fault raised by
    [run_rcon]. *)
Lemma run_rcon_exit_once_witness :
  (exists tr : list call,
     fst (run_rcon (serving "players: 3") (start (filled "27015")))
       = made (start (filled "27015")) tr /\
     exits tr = 1%nat /\
     snd (run_rcon (serving "players: 3") (start (filled "27015")))
       = Ret (PyStr "players: 3")) /\
  snd (run_rcon refusing (start (filled "27015")))
    = Raise ConnectionRefusedError.
Proof.
  split.
  - destruct (run_rcon_exit_once (serving "players: 3")
                (start (filled "27015"))
                (RCONParams.make "localhost" 27015 "secret" "status") eq_refl)
      as [tr [Htr [Hin _]]].
    exists tr. split; [exact Htr|].
    destruct (Hin eq_refl eq_refl) as [_ [Hx Hs]]. split; [exact Hx | exact Hs].
  - destruct (run_rcon_exit_once refusing (start (filled "27015"))
                (RCONParams.make "localhost" 27015 "secret" "status") eq_refl)
      as [tr [_ [_ [_ Hprop]]]].
    apply Hprop. right. split; reflexivity.
Defined.

(** C4, as stated, fails: on validated parameters, when the connection is
    refused as the context is entered, [run_rcon] raises
    [ConnectionRefusedError] having called the constructor and [__enter__]
    only; the number of [__exit__] calls is not one. *)
Lemma run_rcon_refused_never_exits :
  get_rcon_params (gui (start (filled "27015")))
    = Ret (RCONParams.make "localhost" 27015 "secret" "status") /\
  run_rcon refusing (start (filled "27015"))
    = (made (start (filled "27015"))
            (CallInit "localhost" 27015 "secret" :: CallEnter :: nil),
       Raise ConnectionRefusedError) /\
  exits (calls (fst (run_rcon refusing (start (filled "27015"))))) <> 1%nat.
Proof. repeat split. discriminate. Qed.

(** C5. When validation fails, [run_rcon] raises the validation failure
    and leaves the world as it was: no call is made on the client, not even
    its constructor; and the calls are the same after [on_button_clicked]. *)
Theorem validation_failure_makes_no_call (c : Client) (w : world) (e : exn) :
  get_rcon_params (gui w) = Raise e ->
  run_rcon c w = (w, Raise e) /\
  calls (fst (on_button_clicked c w)) = calls w.
Proof.
  intros Hv. pose proof (run_rcon_invalid c _ _ Hv) as Hr.
  split; [exact Hr|].
  rewrite (on_button_clicked_raised _ _ _ _ Hr).
  destruct (get_rcon_params_Raise _ _ Hv) as [message [-> _]]. reflexivity.
Qed.

(** A port out of range: the client is never called. *)
Lemma validation_failure_makes_no_call_witness :
  run_rcon (serving "players: 3") (start (filled "65536"))
    = (start (filled "65536"),
       Raise (ValueError (PyStr "Invalid port specified." :: nil))) /\
  calls (fst (on_button_clicked (serving "players: 3") (start (filled "65536"))))
    = nil.
Proof.
  apply (validation_failure_makes_no_call (serving "players: 3")
           (start (filled "65536"))).
  reflexivity.
Defined.

(** C6. With a host, a command and a port text that [int] reads as [n]:
    when [0 <= n <= 65535], both ends included, validation succeeds and the
    parameters returned carry [n] as their port; when [n] is outside that
    range it fails with "Invalid port specified.". *)
Theorem get_rcon_params_port_range (g : GUI) (n : Z) :
  host g <> EmptyString -> port g <> EmptyString -> command g <> EmptyString ->
  int (port g) = Some n ->
  (0 <= n <= 65535 ->
     get_rcon_params g = Ret (RCONParams.make (host g) n (passwd g) (command g)))
  /\
  (~ 0 <= n <= 65535 ->
     get_rcon_params g = invalid "Invalid port specified.").
Proof.
  intros Hh Hp Hc Hi.
  rewrite get_rcon_params_filled by assumption. rewrite Hi.
  split; intros Hn.
  - rewrite (in_range_true _ Hn). reflexivity.
  - rewrite (in_range_false _ Hn). reflexivity.
Qed.

(** The two ends of the range, a usual port, and the first integer past
    either end. *)
Lemma get_rcon_params_port_range_witness :
  get_rcon_params (filled "0")
    = Ret (RCONParams.make "localhost" 0 "secret" "status") /\
  get_rcon_params (filled "65535")
    = Ret (RCONParams.make "localhost" 65535 "secret" "status") /\
  get_rcon_params (filled "27015")
    = Ret (RCONParams.make "localhost" 27015 "secret" "status") /\
  get_rcon_params (filled "-1") = invalid "Invalid port specified." /\
  get_rcon_params (filled "65536") = invalid "Invalid port specified.".
Proof.
  split; [|split; [|split; [|split]]].
  - apply (get_rcon_params_port_range (filled "0") 0);
      [discriminate | discriminate | discriminate | reflexivity | lia].
  - apply (get_rcon_params_port_range (filled "65535") 65535);
      [discriminate | discriminate | discriminate | reflexivity | lia].
  - apply (get_rcon_params_port_range (filled "27015") 27015);
      [discriminate | discriminate | discriminate | reflexivity | lia].
  - apply (get_rcon_params_port_range (filled "-1") (-1));
      [discriminate | discriminate | discriminate | reflexivity | lia].
  - apply (get_rcon_params_port_range (filled "65536") 65536);
      [discriminate | discriminate | discriminate | reflexivity | lia].
Defined.

(** C7. The password is handed to the client's constructor and the session
    is what entering its context gives, so a rejected authentication reaches
    [run_rcon] as [WrongPassword] raised by the constructor or by
    [__enter__].  Then [run_rcon] raises [WrongPassword],
    [on_button_clicked] shows "Invalid password." and returns, and [run] is
    not among the calls made on the client. *)
Theorem wrong_password_never_runs (c : Client) (w : world) (p : RCONParams.t) :
  get_rcon_params (gui w) = Ret p ->
  let init := Client_init c (RCONParams.host p) (RCONParams.port p)
                          (RCONParams.passwd p) in
  init = Raise WrongPassword \/
  (init = Ret tt /\ Client_enter c = Raise WrongPassword) ->
  exists tr : list call,
    run_rcon c w = (made w tr, Raise WrongPassword) /\
    on_button_clicked c w = (shown (made w tr) "Invalid password.", Ret tt) /\
    (forall command, ~ In (CallRun command) tr).
Proof.
  intros Hp init [Hi|[Hi He]]; subst init.
  - eexists. pose proof (run_rcon_init_raises _ _ _ _ Hp Hi) as Hr.
    split; [exact Hr|]. split.
    + rewrite (on_button_clicked_raised _ _ _ _ Hr). reflexivity.
    + intros command [H|[]]. discriminate.
  - eexists. pose proof (run_rcon_enter_raises _ _ _ _ Hp Hi He) as Hr.
    split; [exact Hr|]. split.
    + rewrite (on_button_clicked_raised _ _ _ _ Hr). reflexivity.
    + intros command [H|[H|[]]]; discriminate.
Qed.

(** A login rejected as the context is entered. *)
Lemma wrong_password_never_runs_witness :
  exists tr : list call,
    run_rcon rejecting (start (filled "27015"))
      = (made (start (filled "27015")) tr, Raise WrongPassword) /\
    on_button_clicked rejecting (start (filled "27015"))
      = (shown (made (start (filled "27015")) tr) "Invalid password.", Ret tt) /\
    (forall command, ~ In (CallRun command) tr).
Proof.
  apply (wrong_password_never_runs rejecting (start (filled "27015"))
           (RCONParams.make "localhost" 27015 "secret" "status") eq_refl).
  right. split; reflexivity.
Defined.

(** C8. Handing the dictionary of [gui_settings] to its setter, in any
    window, succeeds and leaves host, port, command, result and the
    save-password state as they were read; when save-password is on, the
    dictionary has the password under [passwd] and the password is restored;
    when it is off, the dictionary has no [passwd] key and the password
    field is set to the empty text. *)
Theorem gui_settings_roundtrip (g : GUI) (w : world) :
  gui_settings_setter (gui_settings g) w
    = ({| gui := restored g; dialogs := dialogs w; calls := calls w |}, Ret tt)
  /\ host (restored g) = host g
  /\ port (restored g) = port g
  /\ command (restored g) = command g
  /\ result (restored g) = result g
  /\ savepw (restored g) = savepw g
  /\ (savepw g = true ->
        passwd (restored g) = passwd g /\
        gui_settings g !! "passwd" = Some (PyStr (passwd g)))
  /\ (savepw g = false ->
        passwd (restored g) = EmptyString /\
        gui_settings g !! "passwd" = None).
Proof.
  destruct (gui_settings_lookup g) as (Hh & Hp & Hc & Hr & Hs & Hpw).
  split.
  - unfold gui_settings_setter, dict_get.
    rewrite Hh, Hp, Hc, Hr, Hs, Hpw. unfold restored.
    destruct g as [h p pw c r [|]]; reflexivity.
  - unfold restored. rewrite Hpw.
    destruct g as [h p pw c r [|]]; simpl; repeat split; trivial; discriminate.
Qed.

(** Save-password off: no [passwd] key, and an empty password after. *)
Lemma gui_settings_roundtrip_witness :
  passwd (restored (filled "27015")) = EmptyString /\
  gui_settings (filled "27015") !! "passwd" = None.
Proof.
  apply (gui_settings_roundtrip (filled "27015") (start (filled "0"))).
  reflexivity.
Defined.

(** C9. The password takes no part in validation.  Replacing the password
    text by any other, the empty one included, changes neither whether
    validation fails nor the exception it raises, and when validation
    succeeds the parameters carry the password text as it is; so when host,
    port and command pass their checks, validation succeeds whatever the
    password. *)
Theorem get_rcon_params_password_free (g : GUI) (pw : string) :
  get_rcon_params (set_passwd pw g) =
    match get_rcon_params g with
    | Raise e => Raise e
    | Ret p => Ret (RCONParams.make (RCONParams.host p) (RCONParams.port p) pw
                                    (RCONParams.command p))
    end
  /\
  (forall n : Z,
     host g <> EmptyString -> port g <> EmptyString ->
     command g <> EmptyString ->
     int (port g) = Some n -> 0 <= n <= 65535 ->
     get_rcon_params (set_passwd pw g)
       = Ret (RCONParams.make (host g) n pw (command g))).
Proof.
  split.
  - unfold get_rcon_params, set_passwd. simpl.
    destruct (String.eqb (host g) EmptyString); simpl; [reflexivity|].
    destruct (String.eqb (port g) EmptyString); simpl; [reflexivity|].
    destruct (String.eqb (command g) EmptyString); simpl; [reflexivity|].
    destruct (int (port g)) as [k|]; [|reflexivity].
    destruct (negb _); reflexivity.
  - intros n Hh Hp Hc Hi Hn.
    rewrite (get_rcon_params_filled (set_passwd pw g)) by assumption.
    simpl. rewrite Hi, (in_range_true _ Hn). reflexivity.
Qed.

(** An empty password on otherwise valid input. *)
Lemma get_rcon_params_password_free_witness :
  get_rcon_params (set_passwd EmptyString (filled "27015"))
    = Ret (RCONParams.make "localhost" 27015 EmptyString "status").
Proof.
  apply (get_rcon_params_password_free (filled "27015") EmptyString)
    with (n := 27015);
    [discriminate | discriminate | discriminate | reflexivity | lia].
Defined.

(** C10. Whenever [run_rcon] raises - a validation failure, one of the
    handled session faults, or any other - the window after
    [on_button_clicked] is the window before, result field included.  When
    [run_rcon] returns a text, the result field is set to it and nothing
    else changes.  So the result field changes only when the session
    succeeded. *)
Theorem result_kept_on_failure (c : Client) (w : world) :
  (forall w1 e,
     run_rcon c w = (w1, Raise e) -> gui (fst (on_button_clicked c w)) = gui w)
  /\
  (forall w1 text,
     run_rcon c w = (w1, Ret (PyStr text)) ->
     gui (fst (on_button_clicked c w)) = set_result text (gui w))
  /\
  (result (gui (fst (on_button_clicked c w))) <> result (gui w) ->
   exists w1 text, run_rcon c w = (w1, Ret (PyStr text))).
Proof.
  assert (Hfail : forall w1 e, run_rcon c w = (w1, Raise e) ->
                    gui (fst (on_button_clicked c w)) = gui w).
  { intros w1 e Hr. pose proof (run_rcon_gui c w) as Hg. rewrite Hr in Hg.
    rewrite (on_button_clicked_raised _ _ _ _ Hr).
    destruct e as [args| | | | |cls]; try exact Hg.
    destruct (join " " args); exact Hg. }
  split; [exact Hfail|]. split.
  - intros w1 text Hr. pose proof (run_rcon_gui c w) as Hg. rewrite Hr in Hg.
    rewrite (on_button_clicked_returned _ _ _ _ Hr). simpl in *.
    rewrite Hg. reflexivity.
  - intros Hne. destruct (run_rcon c w) as [w1 [v|e]] eqn:Hr.
    + pose proof (run_rcon_gui c w) as Hg. rewrite Hr in Hg.
      destruct v as [text| | |]; [eauto | exfalso; apply Hne ..];
        rewrite (on_button_clicked_returned _ _ _ _ Hr); simpl in *;
        rewrite Hg; reflexivity.
    + exfalso. apply Hne. rewrite (Hfail _ _ eq_refl). reflexivity.
Qed.

(** A rejected login leaves the window as it was; a served command sets
    the result. *)
Lemma result_kept_on_failure_witness :
  gui (fst (on_button_clicked rejecting (start (filled "27015"))))
    = filled "27015" /\
  gui (fst (on_button_clicked (serving "players: 3") (start (filled "27015"))))
    = set_result "players: 3" (filled "27015").
Proof.
  split.
  - apply (proj1 (result_kept_on_failure rejecting (start (filled "27015")))
             (made (start (filled "27015"))
                   (CallInit "localhost" 27015 "secret" :: CallEnter :: nil))
             WrongPassword).
    reflexivity.
  - apply (proj1 (proj2 (result_kept_on_failure (serving "players: 3")
                           (start (filled "27015"))))
             (made (start (filled "27015"))
                   (CallInit "localhost" 27015 "secret" :: CallEnter
                    :: CallRun "status" :: CallExit None :: nil))).
    reflexivity.
Defined.

(** ** Further facts about validation *)

Section MoreValidation.
Implicit Types (g : GUI) (s : string) (n : Z).

Lemma int_leading_space a s : Py_ISSPACE a = true -> int (String a s) = int s.
Proof.
  intros Ha. unfold int. simpl.
  assert (Hc : (code a <? 127) = true).
  { unfold Py_ISSPACE in Ha. apply Z.ltb_lt.
    destruct (Z.leb_spec 9 (code a)), (Z.leb_spec (code a) 13),
      (Z.eqb_spec (code a) 32); simpl in Ha; try discriminate; lia. }
  rewrite Hc. unfold PyLong_FromString. simpl. rewrite Ha. reflexivity.
Qed.

Lemma int_minus_nonpositive r n : int (String "-" r) = Some n -> n <= 0.
Proof.
  unfold int. simpl. unfold PyLong_FromString. simpl.
  destruct (starts_with_underscore _); [discriminate|].
  destruct (scan_digits _ _) as [[d rest]|]; [|discriminate].
  destruct d; try discriminate;
    (destruct (skip_space rest); [|discriminate]); intros [= <-];
    unfold Z.of_int, Z.of_uint; lia.
Qed.

Lemma str_nonempty n : str n <> EmptyString.
Proof.
  intros H. pose proof (int_str n) as Hi. rewrite H in Hi. discriminate.
Qed.

End MoreValidation.

(** X1. Whatever [get_rcon_params] returns has a non-empty host, a
    non-empty command and a port from 0 to 65535. *)
Theorem get_rcon_params_invariant (g : GUI) (p : RCONParams.t) :
  get_rcon_params g = Ret p ->
  RCONParams.host p <> EmptyString /\
  RCONParams.command p <> EmptyString /\
  0 <= RCONParams.port p <= 65535.
Proof.
  intros H. destruct (get_rcon_params_Ret _ _ H) as (Hh & _ & Hc & _ & Hr & ->).
  simpl. auto.
Qed.

(** The parameters of a valid window. *)
Lemma get_rcon_params_invariant_witness :
  RCONParams.host (RCONParams.make "localhost" 27015 "secret" "status")
    <> EmptyString /\
  RCONParams.command (RCONParams.make "localhost" 27015 "secret" "status")
    <> EmptyString /\
  0 <= RCONParams.port (RCONParams.make "localhost" 27015 "secret" "status")
    <= 65535.
Proof.
  apply (get_rcon_params_invariant (filled "27015")). reflexivity.
Defined.

(** X2. With a host and a command, every port [n] from 0 to 65535,
    written as [str n] in the port field, passes validation and is read back
    as [n]. *)
Theorem every_port_can_be_entered (g : GUI) (n : Z) :
  host g <> EmptyString -> command g <> EmptyString -> 0 <= n <= 65535 ->
  get_rcon_params (set_port (str n) g)
    = Ret (RCONParams.make (host g) n (passwd g) (command g)).
Proof.
  intros Hh Hc Hn.
  rewrite (get_rcon_params_filled (set_port (str n) g));
    [| exact Hh | apply str_nonempty | exact Hc].
  simpl. rewrite int_str, (in_range_true _ Hn). reflexivity.
Qed.

(** The highest port. *)
Lemma every_port_can_be_entered_witness :
  get_rcon_params (set_port (str 65535) (filled EmptyString))
    = Ret (RCONParams.make "localhost" 65535 "secret" "status").
Proof.
  apply (every_port_can_be_entered (filled EmptyString) 65535);
    [discriminate | discriminate | lia].
Defined.

(** X3. When the port text starts with a minus sign and validation
    succeeds, the port is 0: [int] accepts the sign, and the range check
    leaves zero only. *)
Theorem minus_sign_only_for_zero (g : GUI) (r : string) (p : RCONParams.t) :
  port g = String "-" r ->
  get_rcon_params g = Ret p ->
  RCONParams.port p = 0.
Proof.
  intros Hp H. destruct (get_rcon_params_Ret _ _ H) as (_ & _ & _ & Hi & Hr & _).
  rewrite Hp in Hi. apply int_minus_nonpositive in Hi. lia.
Qed.

(** The port text -0. *)
Lemma minus_sign_only_for_zero_witness :
  RCONParams.port (RCONParams.make "localhost" 0 "secret" "status") = 0.
Proof.
  apply (minus_sign_only_for_zero (filled "-0") "0"); reflexivity.
Defined.

(** X4. A blank (tab, line feed, vertical tab, form feed, carriage
    return or space) put before a non-empty port text changes nothing in the
    outcome of validation: same parameters, or same failure. *)
Theorem leading_blank_in_port_ignored (g : GUI) (a : ascii) :
  Py_ISSPACE a = true -> port g <> EmptyString ->
  get_rcon_params (set_port (String a (port g)) g) = get_rcon_params g.
Proof.
  intros Ha Hp. unfold get_rcon_params. simpl.
  destruct (String.eqb (host g) EmptyString); simpl; [reflexivity|].
  destruct (String.eqb_spec (port g) EmptyString); [contradiction|]. simpl.
  rewrite (int_leading_space _ _ Ha). reflexivity.
Qed.

(** A space before 27015. *)
Lemma leading_blank_in_port_ignored_witness :
  get_rcon_params (set_port (String " " (port (filled "27015"))) (filled "27015"))
    = get_rcon_params (filled "27015").
Proof.
  apply (leading_blank_in_port_ignored (filled "27015") " ");
    [reflexivity | discriminate].
Defined.

(** ** Further facts about the runner *)

Section MoreRunner.
Implicit Types (c : Client) (w : world) (p : RCONParams.t) (e : exn).

Lemma join_raises_TypeError sep items e :
  join sep items = Raise e -> e = TypeError.
Proof.
  induction items as [|v rest IH]; simpl; [discriminate|].
  destruct v; try (intros [= <-]; reflexivity).
  destruct rest as [|v' rest']; [discriminate|].
  destruct (join sep (v' :: rest')); [discriminate|].
  intros [= <-]. apply IH. reflexivity.
Qed.

Lemma join_strings sep (l : list string) :
  join sep (map PyStr l) = Ret (String.concat sep l).
Proof.
  induction l as [|x xs IH]; [reflexivity|].
  destruct xs as [|y ys]; [reflexivity|].
  change (join sep (map PyStr (x :: y :: ys)))
    with (match join sep (map PyStr (y :: ys)) with
          | Ret t => Ret (x +:+ sep +:+ t)
          | Raise e => Raise e
          end).
  rewrite IH. reflexivity.
Qed.

(** [run_rcon] touches nothing but the list of calls. *)
Lemma run_rcon_trace c w : exists tr, fst (run_rcon c w) = made w tr.
Proof.
  destruct (get_rcon_params (gui w)) as [p|e] eqn:Hp.
  2: { exists nil. rewrite (run_rcon_invalid _ _ _ Hp). unfold made. simpl.
       rewrite app_nil_r. destruct w; reflexivity. }
  destruct (Client_init c (RCONParams.host p) (RCONParams.port p)
                        (RCONParams.passwd p)) as [[]|e] eqn:Hi.
  2: { eexists. rewrite (run_rcon_init_raises _ _ _ _ Hp Hi). reflexivity. }
  destruct (Client_enter c) as [[]|e] eqn:He.
  2: { eexists. rewrite (run_rcon_enter_raises _ _ _ _ Hp Hi He). reflexivity. }
  eexists. rewrite (run_rcon_entered _ _ _ Hp Hi He). reflexivity.
Qed.

End MoreRunner.

(** X5. On valid input, when the client is constructed and entered,
    [run] returns a text and [__exit__] returns, [on_button_clicked] returns
    normally, writes that text to the result field and nothing else in the
    window, shows no dialog, and has made exactly the four calls, with the
    host and password texts, the parsed port and the command text. *)
Theorem served_command_sets_result (c : Client) (w : world) (p : RCONParams.t)
    (text : string) (v : pyval) :
  get_rcon_params (gui w) = Ret p ->
  Client_init c (RCONParams.host p) (RCONParams.port p) (RCONParams.passwd p)
    = Ret tt ->
  Client_enter c = Ret tt ->
  Client_run c (RCONParams.command p) = Ret (PyStr text) ->
  Client_exit c None = Ret v ->
  on_button_clicked c w
  = ({| gui := set_result text (gui w);
        dialogs := dialogs w;
        calls := (calls w
                  ++ CallInit (RCONParams.host p) (RCONParams.port p)
                              (RCONParams.passwd p)
                  :: CallEnter :: CallRun (RCONParams.command p)
                  :: CallExit None :: nil)%list |}, Ret tt).
Proof.
  intros Hp Hi He Hr Hx.
  pose proof (run_rcon_entered c w p Hp Hi He) as H. simpl in H.
  rewrite Hr in H. simpl in H. rewrite Hx in H. simpl in H.
  rewrite (on_button_clicked_returned _ _ _ _ H). reflexivity.
Qed.

(** A served command. *)
Lemma served_command_sets_result_witness :
  on_button_clicked (serving "players: 3") (start (filled "27015"))
  = ({| gui := set_result "players: 3" (filled "27015");
        dialogs := nil;
        calls := CallInit "localhost" 27015 "secret" :: CallEnter
                 :: CallRun "status" :: CallExit None :: nil |}, Ret tt).
Proof.
  apply (served_command_sets_result (serving "players: 3")
           (start (filled "27015"))
           (RCONParams.make "localhost" 27015 "secret" "status")
           "players: 3" PyNone); reflexivity.
Defined.

(** X6. The calls of one [run_rcon] are none at all, or the
    constructor alone, or the constructor and [__enter__], or the
    constructor, [__enter__], one [run] and one [__exit__], with the
    arguments taken from the validated parameters; so at most one command is
    sent per click, and [run_rcon] changes nothing else in the world. *)
Theorem run_rcon_call_sequences (c : Client) (w : world) :
  exists tr : list call,
    fst (run_rcon c w) = made w tr /\
    (tr = nil \/
     exists p,
       get_rcon_params (gui w) = Ret p /\
       let init := CallInit (RCONParams.host p) (RCONParams.port p)
                            (RCONParams.passwd p) in
       (tr = init :: nil \/
        tr = init :: CallEnter :: nil \/
        exists exc,
          tr = init :: CallEnter :: CallRun (RCONParams.command p)
               :: CallExit exc :: nil)).
Proof.
  destruct (get_rcon_params (gui w)) as [p|e] eqn:Hp.
  2: { exists nil. rewrite (run_rcon_invalid _ _ _ Hp). unfold made. simpl.
       rewrite app_nil_r. split; [destruct w; reflexivity | left; reflexivity]. }
  destruct (Client_init c (RCONParams.host p) (RCONParams.port p)
                        (RCONParams.passwd p)) as [[]|e] eqn:Hi.
  2: { eexists. rewrite (run_rcon_init_raises _ _ _ _ Hp Hi).
       split; [reflexivity|]. right. exists p. split; [reflexivity|].
       left. reflexivity. }
  destruct (Client_enter c) as [[]|e] eqn:He.
  2: { eexists. rewrite (run_rcon_enter_raises _ _ _ _ Hp Hi He).
       split; [reflexivity|]. right. exists p. split; [reflexivity|].
       right. left. reflexivity. }
  eexists. rewrite (run_rcon_entered _ _ _ Hp Hi He).
  split; [reflexivity|]. right. exists p. split; [reflexivity|].
  right. right. eexists. reflexivity.
Qed.

(** X7. When [__exit__] raises, [run_rcon] raises that exception,
    whatever [run] did: a text that [run] returned is lost, an exception it
    raised is replaced; and the window is left as it was. *)
Theorem failing_exit_masks_the_outcome (c : Client) (w : world)
    (p : RCONParams.t) (e' : exn) :
  get_rcon_params (gui w) = Ret p ->
  Client_init c (RCONParams.host p) (RCONParams.port p) (RCONParams.passwd p)
    = Ret tt ->
  Client_enter c = Ret tt ->
  Client_exit c (raised (Client_run c (RCONParams.command p))) = Raise e' ->
  snd (run_rcon c w) = Raise e' /\
  gui (fst (on_button_clicked c w)) = gui w.
Proof.
  intros Hp Hi He Hx.
  pose proof (run_rcon_entered c w p Hp Hi He) as H. simpl in H.
  rewrite Hx in H.
  assert (Hr : run_rcon c w
               = (made w (CallInit (RCONParams.host p) (RCONParams.port p)
                                   (RCONParams.passwd p)
                          :: CallEnter :: CallRun (RCONParams.command p)
                          :: CallExit (raised (Client_run c (RCONParams.command p)))
                          :: nil), Raise e')).
  { rewrite H. destruct (Client_run c (RCONParams.command p)); reflexivity. }
  split; [rewrite Hr; reflexivity|].
  rewrite (on_button_clicked_raised _ _ _ _ Hr).
  destruct e' as [args| | | | |cls]; try reflexivity.
  destruct (join " " args); reflexivity.
Qed.

(** A served command whose connection fails to close. *)
Lemma failing_exit_masks_the_outcome_witness :
  snd (run_rcon failing_to_close (start (filled "27015"))) = Raise timeout /\
  gui (fst (on_button_clicked failing_to_close (start (filled "27015"))))
    = filled "27015".
Proof.
  apply (failing_exit_masks_the_outcome failing_to_close
           (start (filled "27015"))
           (RCONParams.make "localhost" 27015 "secret" "status") timeout);
    reflexivity.
Defined.

(** X8. When [run] raises and [__exit__] answers true, the
    exception is suppressed, [run_rcon] returns [None], and
    [on_button_clicked] ends in the [TypeError] of [set_text(None)]: no
    dialog, window unchanged. *)
Theorem suppressed_fault_ends_in_TypeError (c : Client) (w : world)
    (p : RCONParams.t) (e : exn) (v : pyval) :
  get_rcon_params (gui w) = Ret p ->
  Client_init c (RCONParams.host p) (RCONParams.port p) (RCONParams.passwd p)
    = Ret tt ->
  Client_enter c = Ret tt ->
  Client_run c (RCONParams.command p) = Raise e ->
  Client_exit c (Some e) = Ret v -> truthy v = true ->
  snd (run_rcon c w) = Ret PyNone /\
  on_button_clicked c w
  = (made w (CallInit (RCONParams.host p) (RCONParams.port p)
                      (RCONParams.passwd p)
             :: CallEnter :: CallRun (RCONParams.command p)
             :: CallExit (Some e) :: nil), Raise TypeError).
Proof.
  intros Hp Hi He Hr Hx Hv.
  pose proof (run_rcon_entered c w p Hp Hi He) as H. simpl in H.
  rewrite Hr in H. simpl in H. rewrite Hx in H. simpl in H. rewrite Hv in H.
  split; [rewrite H; reflexivity|].
  rewrite (on_button_clicked_returned _ _ _ _ H). reflexivity.
Qed.

(** A request id mismatch that [__exit__] swallows. *)
Lemma suppressed_fault_ends_in_TypeError_witness :
  snd (run_rcon swallowing (start (filled "27015"))) = Ret PyNone /\
  on_button_clicked swallowing (start (filled "27015"))
  = (made (start (filled "27015"))
          (CallInit "localhost" 27015 "secret" :: CallEnter :: CallRun "status"
           :: CallExit (Some RequestIdMismatch) :: nil), Raise TypeError).
Proof.
  apply (suppressed_fault_ends_in_TypeError swallowing (start (filled "27015"))
           (RCONParams.make "localhost" 27015 "secret" "status")
           RequestIdMismatch (PyBool true)); reflexivity.
Defined.

(** X9. An exception that leaves [on_button_clicked] is never a
    [ValueError], a [ConnectionRefusedError], a [socket.timeout], a
    [RequestIdMismatch] or a [WrongPassword]. *)
Theorem on_button_clicked_raises_unhandled_only (c : Client) (w : world)
    (e : exn) :
  snd (on_button_clicked c w) = Raise e -> exists cls, e = OtherError cls.
Proof.
  destruct (run_rcon c w) as [w1 [v|e0]] eqn:Hr.
  - rewrite (on_button_clicked_returned _ _ _ _ Hr).
    destruct v; simpl; try discriminate; intros [= <-]; eexists; reflexivity.
  - rewrite (on_button_clicked_raised _ _ _ _ Hr).
    destruct e0 as [args| | | | |cls]; simpl; try discriminate.
    + destruct (join " " args) as [m|e1] eqn:Hj; simpl; [discriminate|].
      intros [= <-]. rewrite (join_raises_TypeError _ _ _ Hj).
      eexists. reflexivity.
    + intros [= <-]. eexists. reflexivity.
Qed.

(** A [ValueError] with an [int] among its arguments: the join raises. *)
Lemma on_button_clicked_raises_unhandled_only_witness :
  exists cls, TypeError = OtherError cls.
Proof.
  apply (on_button_clicked_raises_unhandled_only out_of_bounds
           (start (filled "27015")) TypeError).
  reflexivity.
Defined.

(** X10. One click shows at most one error dialog, keeps the
    dialogs shown before, and shows none when [run_rcon] returned. *)
Theorem on_button_clicked_shows_at_most_one (c : Client) (w : world) :
  exists shown_now : list string,
    dialogs (fst (on_button_clicked c w)) = (dialogs w ++ shown_now)%list /\
    (length shown_now <= 1)%nat /\
    (forall v, snd (run_rcon c w) = Ret v -> shown_now = nil).
Proof.
  destruct (run_rcon_trace c w) as [tr Htr].
  destruct (run_rcon c w) as [w1 [v|e0]] eqn:Hr; simpl in Htr; subst w1.
  - exists nil. rewrite (on_button_clicked_returned _ _ _ _ Hr).
    rewrite app_nil_r. split; [destruct v; reflexivity|]. split; [simpl; lia|].
    reflexivity.
  - rewrite (on_button_clicked_raised _ _ _ _ Hr).
    destruct e0 as [args| | | | |cls];
      try (eexists (_ :: nil); split; [reflexivity|];
           split; [simpl; lia | discriminate]).
    + destruct (join " " args).
      * eexists (_ :: nil). split; [reflexivity|].
        split; [simpl; lia | discriminate].
      * exists nil. simpl. rewrite app_nil_r.
        split; [reflexivity|]. split; [lia | reflexivity].
    + exists nil. simpl. rewrite app_nil_r.
      split; [reflexivity|]. split; [lia | reflexivity].
Qed.

(** X11. For a [ValueError] whose arguments are all strings the
    dialog text is the arguments with one space between neighbours
    ([String.concat]); the handler then returns. *)
Theorem ValueError_dialog_is_the_joined_arguments (c : Client) (w w1 : world)
    (l : list string) :
  run_rcon c w = (w1, Raise (ValueError (map PyStr l))) ->
  on_button_clicked c w = (shown w1 (String.concat " " l), Ret tt).
Proof.
  intros H. rewrite (on_button_clicked_raised _ _ _ _ H), join_strings.
  reflexivity.
Qed.

(** Two words. *)
Lemma ValueError_dialog_is_the_joined_arguments_witness :
  on_button_clicked wordy (start (filled "27015"))
  = (shown (made (start (filled "27015"))
                 (CallInit "localhost" 27015 "secret" :: CallEnter
                  :: CallRun "status"
                  :: CallExit (Some (ValueError (PyStr "bad" :: PyStr "packet"
                                                 :: nil))) :: nil))
           "bad packet", Ret tt).
Proof.
  apply (ValueError_dialog_is_the_joined_arguments wordy
           (start (filled "27015")) _ ("bad" :: "packet" :: nil)).
  reflexivity.
Defined.

(** ** Further facts about the settings *)

Section MoreSettings.
Implicit Types (json : gmap string pyval) (w : world) (g : GUI) (a : app).

Ltac entry key :=
  destruct (_ !! key) as [[?|?|?|]|]; simpl; try reflexivity; try discriminate.

(** The setter, in closed form. *)
Lemma gui_settings_setter_ok json w :
  texts_ok json = true ->
  gui_settings_setter json w
  = ({| gui := loaded_widgets json; dialogs := dialogs w; calls := calls w |},
     Ret tt).
Proof.
  unfold texts_ok, gui_settings_setter, loaded_widgets, text_of, dict_get,
    bind, set_text, set_active, modify_gui, raise.
  entry "host"; entry "port"; entry "passwd"; entry "command"; entry "result".
Qed.

Lemma gui_settings_setter_bad json w :
  texts_ok json = false -> snd (gui_settings_setter json w) = Raise TypeError.
Proof.
  unfold texts_ok, gui_settings_setter, dict_get,
    bind, set_text, set_active, modify_gui, raise.
  entry "host"; entry "port"; entry "passwd"; entry "command"; entry "result".
Qed.

Lemma texts_ok_gui_settings g : texts_ok (gui_settings g) = true.
Proof.
  destruct (gui_settings_lookup g) as (Hh & Hp & Hc & Hr & Hs & Hpw).
  unfold texts_ok. rewrite Hh, Hp, Hc, Hr, Hpw. destruct (savepw g); reflexivity.
Qed.

Lemma loaded_widgets_gui_settings g : loaded_widgets (gui_settings g) = restored g.
Proof.
  destruct (gui_settings_lookup g) as (Hh & Hp & Hc & Hr & Hs & Hpw).
  unfold loaded_widgets, text_of, dict_get, restored.
  rewrite Hh, Hp, Hc, Hr, Hs, Hpw. destruct g as [h p pw c r [|]]; reflexivity.
Qed.

Lemma gui_settings_restored g : gui_settings (restored g) = gui_settings g.
Proof. unfold restored. destruct g as [h p pw c r [|]]; reflexivity. Qed.

End MoreSettings.




(** X14. The setter of [gui_settings] is not atomic: when the host
    entry is acceptable and the port entry is no string, it raises
    [TypeError] with the host field already overwritten and every other
    field as before. *)
Theorem gui_settings_setter_stops_at_first_non_text
    (json : gmap string pyval) (w : world) :
  is_text (json !! "host") = true -> is_text (json !! "port") = false ->
  gui_settings_setter json w
  = ({| gui := set_host (text_of json "host") (gui w); dialogs := dialogs w;
        calls := calls w |}, Raise TypeError).
Proof.
  unfold gui_settings_setter, text_of, dict_get, bind, set_text, modify_gui, raise.
  destruct (json !! "host") as [[?|?|?|]|]; simpl; try discriminate;
    destruct (json !! "port") as [[?|?|?|]|]; simpl; try discriminate;
    reflexivity.
Qed.

(** A port stored as a number. *)
Lemma gui_settings_setter_stops_at_first_non_text_witness :
  gui_settings_setter
    (<[ "host" := PyStr "example.org" ]> {[ "port" := PyInt 27015 ]})
    (start (filled "80"))
  = ({| gui := set_host "example.org" (filled "80"); dialogs := nil;
        calls := nil |}, Raise TypeError).
Proof.
  exact (gui_settings_setter_stops_at_first_non_text
           (<[ "host" := PyStr "example.org" ]> {[ "port" := PyInt 27015 ]})
           (start (filled "80")) eq_refl eq_refl).
Defined.

(** X15. The dictionary of [gui_settings] has exactly the keys host,
    port, command, result and savepw, and passwd besides when save-password
    is on. *)
Theorem gui_settings_keys (g : GUI) :
  dom (gui_settings g)
  = if savepw g
    then ({[ "host"; "port"; "command"; "result"; "savepw"; "passwd" ]}
          : gset string)
    else {[ "host"; "port"; "command"; "result"; "savepw" ]}.
Proof.
  unfold gui_settings. destruct (savepw g);
    rewrite !dom_insert_L, dom_empty_L; set_solver.
Qed.

(** ** Facts about the cache file *)

(** X16. [load_gui_settings] returns normally, with the window
    unchanged and one log record, when the cache file is missing (a warning),
    when opening it raises [FileNotFoundError] (a warning) or
    [PermissionError] (an error), and when its text is no JSON (an error). *)
Theorem load_gui_settings_survives_bad_cache (a : app) :
  (read_error (cache a) = None -> stored (cache a) = None ->
   load_gui_settings a
   = (with_logged WARNING "Cache file not found: %s" a, Ret tt)) /\
  (read_error (cache a) = Some FileNotFoundError ->
   load_gui_settings a
   = (with_logged WARNING "Cache file not found: %s" a, Ret tt)) /\
  (read_error (cache a) = Some PermissionError ->
   load_gui_settings a
   = (with_logged ERROR "Insufficient permissions to read: %s" a, Ret tt)) /\
  (forall args,
     read_error (cache a) = None -> stored (cache a) = Some (Garbage args) ->
     load_gui_settings a
     = (with_logged ERROR "Cache file contains garbage: %s" a, Ret tt)).
Proof.
  unfold load_gui_settings, and_then, open_and_load.
  repeat split.
  - intros Hr Hs. rewrite Hr, Hs. reflexivity.
  - intros Hr. rewrite Hr. reflexivity.
  - intros Hr. rewrite Hr. reflexivity.
  - intros args Hr Hs. rewrite Hr, Hs. reflexivity.
Qed.

(** No cache file. *)
Lemma load_gui_settings_survives_bad_cache_witness :
  load_gui_settings (running (filled "27015") (plain_file None))
  = (with_logged WARNING "Cache file not found: %s"
       (running (filled "27015") (plain_file None)), Ret tt).
Proof.
  exact (proj1 (load_gui_settings_survives_bad_cache
                  (running (filled "27015") (plain_file None)))
           eq_refl eq_refl).
Defined.

(** X17. An exception that leaves [load_gui_settings] is never a
    [FileNotFoundError], a [PermissionError] or a [ValueError]. *)
Theorem load_gui_settings_raises_uncaught_only (a : app) (e : exn) :
  snd (load_gui_settings a) = Raise e ->
  is_instance e "FileNotFoundError" = false /\
  is_instance e "PermissionError" = false /\
  (forall args, e <> ValueError args).
Proof.
  unfold load_gui_settings.
  destruct (and_then open_and_load assign_gui_settings a) as [a1 [[]|e0]];
    simpl; [discriminate|].
  destruct (is_instance e0 "FileNotFoundError") eqn:H1; [discriminate|].
  destruct (is_instance e0 "PermissionError") eqn:H2; [discriminate|].
  destruct e0; simpl; try discriminate; intros [= <-];
    repeat split; trivial; discriminate.
Qed.

(** A cache file that holds a JSON list. *)
Lemma load_gui_settings_raises_uncaught_only_witness :
  is_instance AttributeError "FileNotFoundError" = false /\
  is_instance AttributeError "PermissionError" = false /\
  (forall args, AttributeError <> ValueError args).
Proof.
  apply (load_gui_settings_raises_uncaught_only
           (running (filled "27015") (plain_file (Some JsonOther)))).
  reflexivity.
Defined.

(** X18. A readable cache file that holds JSON of the wrong shape
    is not treated as garbage: for a document that is no object
    [load_gui_settings] raises [AttributeError] with nothing changed, and
    for an object with a non-string under a text key it raises [TypeError];
    nothing is logged. *)
Theorem load_gui_settings_rejects_other_documents (a : app) :
  read_error (cache a) = None ->
  (stored (cache a) = Some JsonOther ->
   load_gui_settings a = (a, Raise AttributeError)) /\
  (forall json,
     stored (cache a) = Some (JsonObject json) -> texts_ok json = false ->
     snd (load_gui_settings a) = Raise TypeError /\
     logged (fst (load_gui_settings a)) = logged a).
Proof.
  intros Hr. unfold load_gui_settings, and_then, open_and_load. rewrite Hr.
  split.
  - intros Hs. rewrite Hs. reflexivity.
  - intros json Hs Hj. rewrite Hs. unfold assign_gui_settings, in_window.
    pose proof (gui_settings_setter_bad json (window a) Hj) as Hb.
    destruct (gui_settings_setter json (window a)) as [w1 r]. simpl in Hb.
    subst r. split; reflexivity.
Qed.

(** A cache file that holds a JSON list. *)
Lemma load_gui_settings_rejects_other_documents_witness :
  load_gui_settings (running (filled "27015") (plain_file (Some JsonOther)))
  = (running (filled "27015") (plain_file (Some JsonOther)),
     Raise AttributeError).
Proof.
  apply (load_gui_settings_rejects_other_documents
           (running (filled "27015") (plain_file (Some JsonOther))));
    reflexivity.
Defined.

(** X19. With a cache file that can be written and read,
    [save_gui_settings] followed by [load_gui_settings] returns normally,
    leaves the file holding the dictionary of [gui_settings], and leaves the
    window as it was but for the password, which is emptied when
    save-password is off; nothing is logged. *)
Theorem save_then_load_restores (a : app) :
  write_error (cache a) = None -> read_error (cache a) = None ->
  and_then save_gui_settings (fun _ => load_gui_settings) a
  = (with_gui (restored (gui (window a)))
       (with_stored (JsonObject (gui_settings (gui (window a)))) a), Ret tt).
Proof.
  intros Hw Hr.
  unfold and_then, save_gui_settings, open_and_dump, load_gui_settings,
    and_then, open_and_load, assign_gui_settings, in_window.
  rewrite Hw. simpl. rewrite Hr.
  rewrite (gui_settings_setter_ok _ _ (texts_ok_gui_settings _)).
  rewrite loaded_widgets_gui_settings.
  unfold with_quit, with_gui, with_stored. simpl. rewrite ?Hw, ?Hr. reflexivity.
Qed.

(** A first save, then a load. *)
Lemma save_then_load_restores_witness :
  and_then save_gui_settings (fun _ => load_gui_settings)
    (running (filled "27015") (plain_file None))
  = (with_gui (restored (filled "27015"))
       (with_stored (JsonObject (gui_settings (filled "27015")))
          (running (filled "27015") (plain_file None))), Ret tt).
Proof.
  apply (save_then_load_restores (running (filled "27015") (plain_file None)));
    reflexivity.
Defined.

(** X20. [terminate] writes the settings and calls
    [Gtk.main_quit] once; when opening the cache file for writing raises
    [PermissionError] it logs an error, leaves the file as it was and still
    quits; when it raises anything else, that exception leaves [terminate],
    nothing is changed and [Gtk.main_quit] is not called. *)
Theorem terminate_quits_unless_save_raises (a : app) :
  (write_error (cache a) = None ->
   terminate a
   = (with_quit (with_stored (JsonObject (gui_settings (gui (window a)))) a),
      Ret tt)) /\
  (write_error (cache a) = Some PermissionError ->
   terminate a
   = (with_quit (with_logged ERROR "Insufficient permissions to read: %s" a),
      Ret tt)) /\
  (forall e,
     write_error (cache a) = Some e -> is_instance e "PermissionError" = false ->
     terminate a = (a, Raise e)).
Proof.
  unfold terminate, and_then, save_gui_settings, open_and_dump.
  destruct a as [w [st re we] lg q]. simpl. repeat split.
  - intros ->. reflexivity.
  - intros ->. reflexivity.
  - intros e -> He. rewrite He. reflexivity.
Qed.

(** No cache directory: the window cannot be closed this way. *)
Lemma terminate_quits_unless_save_raises_witness :
  terminate (running (filled "27015") no_cache_directory)
  = (running (filled "27015") no_cache_directory, Raise FileNotFoundError).
Proof.
  exact (proj2 (proj2 (terminate_quits_unless_save_raises
                         (running (filled "27015") no_cache_directory)))
           FileNotFoundError eq_refl eq_refl).
Defined.

(** X21. With a cache file that can be written and read,
    [terminate] followed by [GUI.__init__] gives a window with the host,
    port, command, result and save-password of the window that was closed,
    and its password when save-password was on, empty otherwise. *)
Theorem settings_survive_a_restart (a : app) :
  write_error (cache a) = None -> read_error (cache a) = None ->
  and_then terminate (fun _ => GUI_init) a
  = (with_quit
       (with_gui (restored (gui (window a)))
          (with_stored (JsonObject (gui_settings (gui (window a)))) a)),
     Ret tt).
Proof.
  intros Hw Hr.
  unfold and_then, terminate, and_then, save_gui_settings, open_and_dump,
    Gtk_main_quit, GUI_init, and_then, load_gui_settings, and_then,
    open_and_load, assign_gui_settings, in_window, modify_gui.
  rewrite Hw. simpl. rewrite Hr.
  rewrite (gui_settings_setter_ok _ _ (texts_ok_gui_settings _)).
  rewrite loaded_widgets_gui_settings.
  unfold with_quit, with_gui, with_stored. simpl. rewrite ?Hw, ?Hr. reflexivity.
Qed.

(** A first run. *)
Lemma settings_survive_a_restart_witness :
  and_then terminate (fun _ => GUI_init)
    (running (filled "27015") (plain_file None))
  = (with_quit
       (with_gui (restored (filled "27015"))
          (with_stored (JsonObject (gui_settings (filled "27015")))
             (running (filled "27015") (plain_file None)))), Ret tt).
Proof.
  apply (settings_survive_a_restart (running (filled "27015") (plain_file None)));
    reflexivity.
Defined.

(** X22. With no cache file, [GUI.__init__] returns normally with
    every entry empty and save-password off, and logs one warning. *)
Theorem first_start_has_empty_widgets (a : app) :
  read_error (cache a) = None -> stored (cache a) = None ->
  GUI_init a
  = (with_logged WARNING "Cache file not found: %s" (with_gui fresh_widgets a),
     Ret tt).
Proof.
  intros Hr Hs.
  unfold GUI_init, and_then, load_gui_settings, and_then, open_and_load,
    in_window, modify_gui.
  simpl. rewrite Hr, Hs. reflexivity.
Qed.

(** A first start. *)
Lemma first_start_has_empty_widgets_witness :
  GUI_init (running (filled "27015") (plain_file None))
  = (with_logged WARNING "Cache file not found: %s"
       (with_gui fresh_widgets (running (filled "27015") (plain_file None))),
     Ret tt).
Proof.
  apply (first_start_has_empty_widgets
           (running (filled "27015") (plain_file None))); reflexivity.
Defined.

(** X23. With save-password off, what [save_gui_settings] leaves
    in the cache file does not depend on the password field. *)
Theorem unsaved_password_stays_out_of_the_cache (a : app) (pw : string) :
  savepw (gui (window a)) = false ->
  cache (fst (save_gui_settings (with_gui (set_passwd pw (gui (window a))) a)))
  = cache (fst (save_gui_settings a)).
Proof.
  intros Hs. unfold save_gui_settings, open_and_dump. simpl.
  destruct (write_error (cache a)) as [e|].
  - destruct (is_instance e "PermissionError"); reflexivity.
  - simpl. unfold gui_settings. simpl. rewrite Hs. reflexivity.
Qed.

(** Two passwords, one cache file. *)
Lemma unsaved_password_stays_out_of_the_cache_witness :
  cache (fst (save_gui_settings
                (with_gui (set_passwd "hunter2" (filled "27015"))
                   (running (filled "27015") (plain_file None)))))
  = cache (fst (save_gui_settings (running (filled "27015") (plain_file None)))).
Proof.
  apply (unsaved_password_stays_out_of_the_cache
           (running (filled "27015") (plain_file None)) "hunter2").
  reflexivity.
Defined.

(** X24. With a cache file that can be written and read, closing,
    starting and closing again leaves the cache file exactly as the first
    closing did. *)
Theorem restart_writes_the_same_cache (a : app) :
  write_error (cache a) = None -> read_error (cache a) = None ->
  cache (fst (and_then terminate
                (fun _ => and_then GUI_init (fun _ => terminate)) a))
  = cache (fst (terminate a)).
Proof.
  destruct a as [w [st re we] lg q]. simpl. intros -> ->.
  unfold and_then, terminate, and_then, save_gui_settings, open_and_dump,
    Gtk_main_quit, GUI_init, and_then, load_gui_settings, and_then,
    open_and_load, assign_gui_settings, in_window, modify_gui.
  simpl.
  rewrite (gui_settings_setter_ok _ _ (texts_ok_gui_settings _)).
  simpl. rewrite loaded_widgets_gui_settings, gui_settings_restored.
  reflexivity.
Qed.

(** A first run and a second. *)
Lemma restart_writes_the_same_cache_witness :
  cache (fst (and_then terminate
                (fun _ => and_then GUI_init (fun _ => terminate))
                (running (filled "27015") (plain_file None))))
  = cache (fst (terminate (running (filled "27015") (plain_file None)))).
Proof.
  apply (restart_writes_the_same_cache
           (running (filled "27015") (plain_file None))); reflexivity.
Defined.
